(** * MoodDecode NLP API: a shallow embedding of [code.py]

    The service forwards a text to a chat-completion endpoint under one of
    three prompts and turns the JSON reply into a typed record.  This file
    embeds the handlers of [code.py] as functions in a small monad that
    threads the log of outbound requests and propagates Python exceptions,
    then states and proves the properties of the specification.

    What belongs to libraries and to the network is not fixed here: the
    completion endpoint, [json.loads], [str(e)], the API key read from the
    environment and pydantic's field validation are parameters of the
    development, so every theorem holds for each behaviour they may have. *)

From Stdlib Require Import ZArith String Ascii List Bool Lia.
From Stdlib Require Import Floats.PrimFloat.
From Stdlib Require Uint63.
From stdpp Require Import gmap strings.

Set Warnings "-inexact-float,-register-all".

(** ** Python values

    The values that [json.loads] and [response.json()] produce: [None],
    [bool], [int], [float], [str], [list] and [dict] with [str] keys.
    Strings are sequences of bytes (UTF-8). *)

Inductive pyval : Type :=
| PyNone
| PyBool (b : bool)
| PyInt (z : Z)
| PyFloat (f : float)
| PyStr (s : string)
| PyList (l : list pyval)
| PyDict (d : gmap string pyval).

(** A subscript is a [str] key or an [int] index. *)
Inductive key : Type :=
| KStr (s : string)
| KInt (i : Z).

(** ** Exceptions

    The exception classes that the handlers can meet.  Every one of them is
    a subclass of [Exception]; [TransportError] and [HTTPStatusError] are
    the subclasses of [httpx.HTTPError]. *)

Inductive exn : Type :=
| TransportError (cls msg : string)
| HTTPStatusError (status : Z)
| HTTPException (status_code : Z) (detail : string)
| KeyError (k : key)
| IndexError (msg : string)
| TypeError (msg : string)
| JSONDecodeError (msg : string)
| ValidationError (model : string) (fields : list string)
| OtherException (cls msg : string).

(** [isinstance(e, httpx.HTTPError)] *)
Definition isinstance_HTTPError (e : exn) : bool :=
  match e with
  | TransportError _ _ | HTTPStatusError _ => true
  | _ => false
  end.

(** [isinstance(e, Exception)] *)
Definition isinstance_Exception (e : exn) : bool := true.

(** The outcome of evaluating an expression: it raises or it returns. *)
Inductive outcome (A : Type) : Type :=
| Raised (e : exn)
| Returned (a : A).
Arguments Raised {A} e.
Arguments Returned {A} a.

Definition obind {A B} (o : outcome A) (k : A -> outcome B) : outcome B :=
  match o with
  | Raised e => Raised e
  | Returned a => k a
  end.

(** ** Subscripting, [v[k]] *)

(** The double-quote character and the one-character string holding it. *)
Definition dquote : ascii := ascii_of_nat 34.
Definition dq : string := String dquote EmptyString.

(** A continuation byte of UTF-8 is [10xxxxxx]. *)
Definition is_continuation (c : ascii) : bool :=
  let n := nat_of_ascii c in (128 <=? n)%nat && (n <? 192)%nat.

(** The characters (code points) of a string, each with its bytes. *)
Fixpoint codepoints (s : string) : list string :=
  match s with
  | EmptyString => []
  | String c r =>
      match codepoints r with
      | String c' g :: gs =>
          if is_continuation c' then String c (String c' g) :: gs
          else String c EmptyString :: String c' g :: gs
      | gs => String c EmptyString :: gs
      end
  end.

(** Indexing of a sequence by a Python [int]: negative indices count from
    the end, anything else out of range is an [IndexError]. *)
Definition py_index {A} (l : list A) (i : Z) : option A :=
  let n := Z.of_nat (length l) in
  if (0 <=? i)%Z && (i <? n)%Z then l !! Z.to_nat i
  else if (- n <=? i)%Z && (i <? 0)%Z then l !! Z.to_nat (n + i)
  else None.

Definition type_name (v : pyval) : string :=
  match v with
  | PyNone => "NoneType"
  | PyBool _ => "bool"
  | PyInt _ => "int"
  | PyFloat _ => "float"
  | PyStr _ => "str"
  | PyList _ => "list"
  | PyDict _ => "dict"
  end.

Definition getitem (v : pyval) (k : key) : outcome pyval :=
  match v, k with
  | PyDict d, KStr s =>
      match d !! s with
      | Some x => Returned x
      | None => Raised (KeyError k)
      end
  | PyDict _, KInt _ => Raised (KeyError k)
  | PyList l, KInt i =>
      match py_index l i with
      | Some x => Returned x
      | None => Raised (IndexError "list index out of range")
      end
  | PyList _, KStr _ =>
      Raised (TypeError "list indices must be integers or slices, not str")
  | PyStr s, KInt i =>
      match py_index (codepoints s) i with
      | Some c => Returned (PyStr c)
      | None => Raised (IndexError "string index out of range")
      end
  | PyStr _, KStr _ => Raised (TypeError "string indices must be integers")
  | _, _ =>
      Raised (TypeError ("'" +:+ type_name v +:+ "' object is not subscriptable"))
  end.

(** ** Request and response models (pydantic) *)

Record TextInput : Type := { text : string }.

Module MoodResponse.
Record t : Type := mk { emotion : string; confidence : float }.
End MoodResponse.

Module CrisisResponse.
Record t : Type :=
  mk { crisis_detected : bool; severity : string; confidence : float }.
End CrisisResponse.

Module SummaryResponse.
Record t : Type := mk { summary : string }.
End SummaryResponse.

(** Validation of a value against a field of type [str], [float] or [bool].
    Which values of another type are coerced depends on the version of
    pydantic; every version returns a value of the field's own type
    unchanged and refuses [None] for a field that is not optional. *)
Class Pydantic : Type := {
  validate_str : pyval -> option string;
  validate_float : pyval -> option float;
  validate_bool : pyval -> option bool;
  validate_str_str : forall s, validate_str (PyStr s) = Some s;
  validate_float_float : forall f, validate_float (PyFloat f) = Some f;
  validate_bool_bool : forall b, validate_bool (PyBool b) = Some b;
  validate_str_None : validate_str PyNone = None;
  validate_float_None : validate_float PyNone = None;
  validate_bool_None : validate_bool PyNone = None
}.

(** The names of the fields that failed validation. *)
Definition invalid {A} (name : string) (o : option A) : list string :=
  match o with
  | Some _ => []
  | None => [name]
  end.

(** ** The outbound request *)

Record Message : Type := { role : string; content : string }.

Record Payload : Type := {
  model : string;
  messages : list Message;
  temperature : float;
  max_tokens : Z;
  response_format : gmap string string
}.

Record Request : Type := {
  url : string;
  headers : gmap string string;
  json : Payload;
  timeout : float
}.

(** What the handlers observe of an [httpx.Response]: its status code and
    what [response.json()] does. *)
Record Response : Type := {
  status_code : Z;
  response_json : outcome pyval
}.

(** ** The monad of the handlers

    A computation receives the log of the requests sent so far and returns
    its outcome with the extended log. *)

Definition M (A : Type) : Type := list Request -> outcome A * list Request.

Definition ret {A} (a : A) : M A := fun log => (Returned a, log).

Definition raise {A} (e : exn) : M A := fun log => (Raised e, log).

Definition lift {A} (o : outcome A) : M A := fun log => (o, log).

Definition bind {A B} (m : M A) (k : A -> M B) : M B :=
  fun log =>
    match m log with
    | (Raised e, log') => (Raised e, log')
    | (Returned a, log') => k a log'
    end.

(** [try: body except cls as e: handler e] *)
Definition try_except {A} (body : M A) (cls : exn -> bool) (handler : exn -> M A)
  : M A :=
  fun log =>
    match body log with
    | (Raised e, log') => if cls e then handler e log' else (Raised e, log')
    | (Returned a, log') => (Returned a, log')
    end.

Declare Scope py_scope.
Delimit Scope py_scope with py.
Notation "x <- m ;; k" := (bind m (fun x => k))
  (at level 100, m at next level, right associativity) : py_scope.
Notation "m ;;; k" := (bind m (fun _ => k))
  (at level 100, right associativity) : py_scope.
Open Scope py_scope.

Definition GROQ_BASE_URL : string :=
  "https://api.groq.com/openai/v1/chat/completions".

(** ** Prompt templates *)

(** The f-string [mood_prompt] of [analyze_mood].  The template is cut at each
    double-quote character: [mood_prompt_head] is the piece before the
    opening quote of the text, [mood_prompt_tail] the pieces after its closing
    quote. *)
Definition mood_prompt_head : string :=
  "
    You are an expert emotion analyst. Analyze the emotional tone of the given text and respond with valid JSON.

    Text to analyze: ".

Definition mood_prompt_tail : list string :=
  [ "

    Classify the emotion into one of these categories:
    - happy
    - sad
    - angry
    - fear
    - surprise
    - disgust
    - neutral

    Consider context, tone, and emotional intensity. Provide a confidence score (0.0-1.0).

    Examples:
    - ";
    "I'm thrilled about my promotion!";
    " → happy (confidence: 0.9)
    - ";
    "This weather is okay I guess";
    " → neutral (confidence: 0.7)
    - ";
    "I'm devastated by this news";
    " → sad (confidence: 0.95)

    Respond with JSON format:
    {
        ";
    "emotion";
    ": ";
    "emotion_name";
    ",
        ";
    "confidence";
    ": 0.0
    }
    " ].

Definition mood_prompt (input_data : TextInput) : string :=
  String.concat dq (mood_prompt_head :: text input_data :: mood_prompt_tail).

(** The f-string [crisis_prompt] of [detect_crisis].  The template is cut at each
    double-quote character: [crisis_prompt_head] is the piece before the
    opening quote of the text, [crisis_prompt_tail] the pieces after its closing
    quote. *)
Definition crisis_prompt_head : string :=
  "
    You are a mental health crisis detection system. Analyze the text for signs of mental health crisis, self-harm, or suicidal ideation.

    Text to analyze: ".

Definition crisis_prompt_tail : list string :=
  [ "

    Crisis indicators include:
    - Suicidal thoughts or plans
    - Self-harm mentions
    - Feeling hopeless or trapped
    - Wanting to die or disappear
    - Feeling like a burden
    - Severe depression or despair
    - Substance abuse with harmful intent

    Severity levels:
    - ";
    "none";
    ": No crisis indicators
    - ";
    "low";
    ": Mild distress, general sadness
    - ";
    "moderate";
    ": Concerning language, needs attention
    - ";
    "high";
    ": Clear crisis indicators, immediate attention needed

    Examples:
    - ";
    "I'm having a bad day";
    " → crisis_detected: false, severity: ";
    "low";
    "
    - ";
    "I don't want to be here anymore";
    " → crisis_detected: true, severity: ";
    "high";
    "
    - ";
    "I'm feeling overwhelmed lately";
    " → crisis_detected: false, severity: ";
    "moderate";
    "

    Respond with JSON format:
    {
        ";
    "crisis_detected";
    ": true/false,
        ";
    "severity";
    ": ";
    "severity_level";
    ",
        ";
    "confidence";
    ": 0.0
    }
    " ].

Definition crisis_prompt (input_data : TextInput) : string :=
  String.concat dq (crisis_prompt_head :: text input_data :: crisis_prompt_tail).

(** The f-string [summary_prompt] of [summarize_text].  The template is cut at each
    double-quote character: [summary_prompt_head] is the piece before the
    opening quote of the text, [summary_prompt_tail] the pieces after its closing
    quote. *)
Definition summary_prompt_head : string :=
  "
    You are a professional text summarization system. Create a concise, accurate summary of the given text.

    Text to summarize: ".

Definition summary_prompt_tail : list string :=
  [ "

    Guidelines:
    - Keep key information and main points
    - Maintain the original tone and context
    - Make it 20-30% of original length
    - Preserve important details
    - Use clear, readable language

    Examples:
    - Long article about climate change → Brief summary covering main points about causes, effects, and solutions
    - Personal story → Condensed version keeping emotional tone and key events
    - Technical document → Simplified version with main concepts

    Respond with JSON format:
    {
        ";
    "summary";
    ": ";
    "your_concise_summary_here";
    "
    }
    " ].

Definition summary_prompt (input_data : TextInput) : string :=
  String.concat dq (summary_prompt_head :: text input_data :: summary_prompt_tail).

(** ** The service *)

Section Service.

(** [os.getenv("GROQ_API_KEY", ...)] *)
Variable GROQ_API_KEY : string.

(** [str(e)], the message of an exception. *)
Variable str : exn -> string.

(** [json.loads] on a [str]: the decoded value, or the exception raised. *)
Variable loads : string -> outcome pyval.

(** The completion endpoint and the transport: what [client.post] does
    with a request, given the number of requests sent before it. *)
Variable post : nat -> Request -> outcome Response.

Context {pydantic : Pydantic}.

(** [json.loads(s)]: a [TypeError] for what is not a [str]. *)
Definition json_loads (s : pyval) : outcome pyval :=
  match s with
  | PyStr s => loads s
  | _ =>
      Raised (TypeError ("the JSON object must be str, bytes or bytearray, not "
                         +:+ type_name s))
  end.

(** [await client.post(url, headers=..., json=..., timeout=...)] *)
Definition client_post (url : string) (headers : gmap string string)
    (json : Payload) (timeout : float) : M Response :=
  fun log =>
    let request :=
      {| url := url; headers := headers; json := json; timeout := timeout |} in
    (post (length log) request, log ++ [request]).

(** [response.raise_for_status()] *)
Definition raise_for_status (response : Response) : outcome unit :=
  if (200 <=? status_code response)%Z && (status_code response <? 300)%Z
  then Returned tt
  else Raised (HTTPStatusError (status_code response)).

Definition call_groq_api (messages : list Message)
    (temperature : option float) (max_tokens : option Z) : M pyval :=
  let temperature := default 0.3%float temperature in
  let max_tokens := default 150%Z max_tokens in
  let headers : gmap string string :=
    <["Content-Type" := "application/json"]>
      (<["Authorization" := "Bearer " +:+ GROQ_API_KEY]> ∅) in
  let payload :=
    {| model := "llama-3.1-70b-versatile";
       messages := messages;
       temperature := temperature;
       max_tokens := max_tokens;
       response_format := {["type" := "json_object"]} |} in
  try_except
    (response <- client_post GROQ_BASE_URL headers payload 30.0%float ;;
     lift (raise_for_status response) ;;;
     lift (response_json response))
    isinstance_HTTPError
    (fun e => raise (HTTPException 500 ("API call failed: " +:+ str e))).

(** The constructors of the response models: every field is validated,
    and the fields that fail are reported in one [ValidationError]. *)
Definition MoodResponse_init (emotion confidence : pyval)
  : outcome MoodResponse.t :=
  match validate_str emotion, validate_float confidence with
  | Some e, Some c => Returned (MoodResponse.mk e c)
  | e, c =>
      Raised (ValidationError "MoodResponse"
                (invalid "emotion" e ++ invalid "confidence" c))
  end.

Definition CrisisResponse_init (crisis_detected severity confidence : pyval)
  : outcome CrisisResponse.t :=
  match validate_bool crisis_detected, validate_str severity,
        validate_float confidence with
  | Some d, Some s, Some c => Returned (CrisisResponse.mk d s c)
  | d, s, c =>
      Raised (ValidationError "CrisisResponse"
                (invalid "crisis_detected" d ++ invalid "severity" s
                 ++ invalid "confidence" c))
  end.

Definition SummaryResponse_init (summary : pyval)
  : outcome SummaryResponse.t :=
  match validate_str summary with
  | Some s => Returned (SummaryResponse.mk s)
  | s => Raised (ValidationError "SummaryResponse" (invalid "summary" s))
  end.

(** [response["choices"][0]["message"]["content"]] *)
Definition message_content (response : pyval) : outcome pyval :=
  obind (getitem response (KStr "choices")) (fun choices =>
  obind (getitem choices (KInt 0)) (fun choice =>
  obind (getitem choice (KStr "message")) (fun message =>
  getitem message (KStr "content")))).

(** [POST /analyze_mood] *)
Definition analyze_mood (input_data : TextInput) : M MoodResponse.t :=
  let mood_prompt := mood_prompt input_data in
  let messages :=
    [ {| role := "system";
         content := "You are a professional emotion analysis API. Always respond with valid JSON." |};
      {| role := "user"; content := mood_prompt |} ] in
  try_except
    (response <- call_groq_api messages (Some 0.2%float) (Some 100%Z) ;;
     content <- lift (message_content response) ;;
     result <- lift (json_loads content) ;;
     emotion <- lift (getitem result (KStr "emotion")) ;;
     confidence <- lift (getitem result (KStr "confidence")) ;;
     lift (MoodResponse_init emotion confidence))
    isinstance_Exception
    (fun e => raise (HTTPException 500 ("Error analyzing mood: " +:+ str e))).

(** [POST /detect_crisis] *)
Definition detect_crisis (input_data : TextInput) : M CrisisResponse.t :=
  let crisis_prompt := crisis_prompt input_data in
  let messages :=
    [ {| role := "system";
         content := "You are a professional crisis detection API. Always respond with valid JSON. Err on the side of caution for safety." |};
      {| role := "user"; content := crisis_prompt |} ] in
  try_except
    (response <- call_groq_api messages (Some 0.1%float) (Some 150%Z) ;;
     content <- lift (message_content response) ;;
     result <- lift (json_loads content) ;;
     crisis_detected <- lift (getitem result (KStr "crisis_detected")) ;;
     severity <- lift (getitem result (KStr "severity")) ;;
     confidence <- lift (getitem result (KStr "confidence")) ;;
     lift (CrisisResponse_init crisis_detected severity confidence))
    isinstance_Exception
    (fun e => raise (HTTPException 500 ("Error detecting crisis: " +:+ str e))).

(** [POST /summarize] *)
Definition summarize_text (input_data : TextInput) : M SummaryResponse.t :=
  let summary_prompt := summary_prompt input_data in
  let messages :=
    [ {| role := "system";
         content := "You are a professional text summarization API. Always respond with valid JSON." |};
      {| role := "user"; content := summary_prompt |} ] in
  try_except
    (response <- call_groq_api messages (Some 0.4%float) (Some 300%Z) ;;
     content <- lift (message_content response) ;;
     result <- lift (json_loads content) ;;
     summary <- lift (getitem result (KStr "summary")) ;;
     lift (SummaryResponse_init summary))
    isinstance_Exception
    (fun e => raise (HTTPException 500 ("Error summarizing text: " +:+ str e))).

End Service.

(** ** Routing

    [@app.post("/analyze_mood")], [@app.post("/detect_crisis")] and
    [@app.post("/summarize")]: the three POST endpoints, and the record each
    answers with. *)

Inductive endpoint : Type :=
| AnalyzeMood
| DetectCrisis
| Summarize.

Inductive record : Type :=
| MoodRecord (r : MoodResponse.t)
| CrisisRecord (r : CrisisResponse.t)
| SummaryRecord (r : SummaryResponse.t).

Definition path (ep : endpoint) : string :=
  match ep with
  | AnalyzeMood => "/analyze_mood"
  | DetectCrisis => "/detect_crisis"
  | Summarize => "/summarize"
  end.

Definition handle (GROQ_API_KEY : string) (str : exn -> string)
    (loads : string -> outcome pyval) (post : nat -> Request -> outcome Response)
    {pydantic : Pydantic} (ep : endpoint) (input_data : TextInput) : M record :=
  match ep with
  | AnalyzeMood =>
      r <- analyze_mood GROQ_API_KEY str loads post input_data ;;
      ret (MoodRecord r)
  | DetectCrisis =>
      r <- detect_crisis GROQ_API_KEY str loads post input_data ;;
      ret (CrisisRecord r)
  | Summarize =>
      r <- summarize_text GROQ_API_KEY str loads post input_data ;;
      ret (SummaryRecord r)
  end.

(** ** Vocabulary of the specification *)

(** The categories that the mood prompt asks the model to choose from. *)
Definition EMOTIONS : list string :=
  ["happy"; "sad"; "angry"; "fear"; "surprise"; "disgust"; "neutral"].

(** The severity levels that the crisis prompt asks the model to choose from. *)
Definition SEVERITIES : list string := ["none"; "low"; "moderate"; "high"].

(** [0.0 <= x <= 1.0] on floats; false for NaN. *)
Definition in_unit_interval (x : float) : bool :=
  PrimFloat.leb 0%float x && PrimFloat.leb x 1%float.

(** The emotion is one of the categories and the confidence is in [0,1]. *)
Definition mood_in_range (r : MoodResponse.t) : Prop :=
  In (MoodResponse.emotion r) EMOTIONS /\
  in_unit_interval (MoodResponse.confidence r) = true.

(** The severity is one of the levels and the confidence is in [0,1]. *)
Definition crisis_in_range (r : CrisisResponse.t) : Prop :=
  In (CrisisResponse.severity r) SEVERITIES /\
  in_unit_interval (CrisisResponse.confidence r) = true.

(** The detail prefix of the error each handler raises. *)
Definition error_prefix (ep : endpoint) : string :=
  match ep with
  | AnalyzeMood => "Error analyzing mood: "
  | DetectCrisis => "Error detecting crisis: "
  | Summarize => "Error summarizing text: "
  end.

(** The fields of the schema of each task. *)
Definition schema (ep : endpoint) : list string :=
  match ep with
  | AnalyzeMood => ["emotion"; "confidence"]
  | DetectCrisis => ["crisis_detected"; "severity"; "confidence"]
  | Summarize => ["summary"]
  end.

Definition system_message (ep : endpoint) : string :=
  match ep with
  | AnalyzeMood =>
      "You are a professional emotion analysis API. Always respond with valid JSON."
  | DetectCrisis =>
      "You are a professional crisis detection API. Always respond with valid JSON. Err on the side of caution for safety."
  | Summarize =>
      "You are a professional text summarization API. Always respond with valid JSON."
  end.

Definition prompt (ep : endpoint) (input_data : TextInput) : string :=
  match ep with
  | AnalyzeMood => mood_prompt input_data
  | DetectCrisis => crisis_prompt input_data
  | Summarize => summary_prompt input_data
  end.

(** What precedes and what follows the text in each prompt. *)
Definition prompt_prefix (ep : endpoint) : string :=
  match ep with
  | AnalyzeMood => mood_prompt_head +:+ dq
  | DetectCrisis => crisis_prompt_head +:+ dq
  | Summarize => summary_prompt_head +:+ dq
  end.

Definition prompt_suffix (ep : endpoint) : string :=
  match ep with
  | AnalyzeMood => dq +:+ String.concat dq mood_prompt_tail
  | DetectCrisis => dq +:+ String.concat dq crisis_prompt_tail
  | Summarize => dq +:+ String.concat dq summary_prompt_tail
  end.

(** ** A decoder for worked examples

    The theorems below hold for every behaviour of [json.loads].  To run the
    handlers on concrete replies, [decode] reads the part of JSON that the
    examples use: objects, arrays, strings with the simple escapes, integers,
    decimal fractions that one correctly rounded division converts, and the
    three literals.  On these texts it returns what [json.loads] returns; a
    text outside this part is reported as an error. *)

Definition is_ws (c : ascii) : bool :=
  let n := nat_of_ascii c in
  (n =? 32)%nat || (n =? 9)%nat || (n =? 10)%nat || (n =? 13)%nat.

Fixpoint skip_ws (s : string) : string :=
  match s with
  | String c r => if is_ws c then skip_ws r else s
  | EmptyString => s
  end.

Definition digit_of (c : ascii) : option Z :=
  let n := nat_of_ascii c in
  if (48 <=? n)%nat && (n <=? 57)%nat then Some (Z.of_nat n - 48)%Z else None.

(** Reads decimal digits: their value after [acc], how many, and the rest. *)
Fixpoint scan_digits (s : string) (acc : Z) (count : nat) : Z * nat * string :=
  match s with
  | String c r =>
      match digit_of c with
      | Some d => scan_digits r (10 * acc + d)%Z (S count)
      | None => (acc, count, s)
      end
  | EmptyString => (acc, count, s)
  end.

Definition unescape (c : ascii) : option ascii :=
  if Ascii.eqb c dquote then Some dquote
  else if Ascii.eqb c "\" then Some "\"%char
  else if Ascii.eqb c "/" then Some "/"%char
  else if Ascii.eqb c "b" then Some (ascii_of_nat 8)
  else if Ascii.eqb c "f" then Some (ascii_of_nat 12)
  else if Ascii.eqb c "n" then Some (ascii_of_nat 10)
  else if Ascii.eqb c "r" then Some (ascii_of_nat 13)
  else if Ascii.eqb c "t" then Some (ascii_of_nat 9)
  else None.

(** Reads a string after its opening quote, up to the closing quote. *)
Fixpoint scan_string (s : string) : option (string * string) :=
  match s with
  | EmptyString => None
  | String c r =>
      if Ascii.eqb c dquote then Some (EmptyString, r)
      else if Ascii.eqb c "\" then
        match r with
        | String e r' =>
            match unescape e, scan_string r' with
            | Some c', Some (body, rest) => Some (String c' body, rest)
            | _, _ => None
            end
        | EmptyString => None
        end
      else if (nat_of_ascii c <? 32)%nat then None
      else
        match scan_string r with
        | Some (body, rest) => Some (String c body, rest)
        | None => None
        end
  end.

(** [m / 10^k] as a float, when one division rounds it correctly. *)
Definition decimal_to_float (negative : bool) (m : Z) (k : nat) : option float :=
  if (m <? 2 ^ 53)%Z && (k <=? 18)%nat then
    let q := PrimFloat.div (PrimFloat.of_uint63 (Uint63.of_Z m))
                           (PrimFloat.of_uint63 (Uint63.of_Z (10 ^ Z.of_nat k))) in
    Some (if negative then PrimFloat.opp q else q)
  else None.

Definition scan_number (s : string) : option (pyval * string) :=
  let '(negative, s1) :=
    match s with
    | String c r => if Ascii.eqb c "-" then (true, r) else (false, s)
    | EmptyString => (false, s)
    end in
  let '(int_part, n, s2) :=
    match s1 with
    | String c r => if Ascii.eqb c "0" then (0%Z, 1%nat, r) else scan_digits s1 0 0
    | EmptyString => (0%Z, 0%nat, s1)
    end in
  match n with
  | O => None
  | S _ =>
      let exponent_follows rest :=
        match rest with
        | String c _ => Ascii.eqb c "e" || Ascii.eqb c "E"
        | EmptyString => false
        end in
      let as_int :=
        if exponent_follows s2 then None
        else Some (PyInt (if negative then - int_part else int_part), s2) in
      match s2 with
      | String c r =>
          if Ascii.eqb c "." then
            match scan_digits r int_part 0 with
            | (_, O, _) => as_int
            | (m, k, s3) =>
                if exponent_follows s3 then None
                else
                  match decimal_to_float negative m k with
                  | Some f => Some (PyFloat f, s3)
                  | None => None
                  end
            end
          else as_int
      | EmptyString => as_int
      end
  end.

(** Whether [s] starts with [p], and what follows. *)
Fixpoint strip_prefix (p s : string) : option string :=
  match p, s with
  | EmptyString, _ => Some s
  | String a p', String b s' => if Ascii.eqb a b then strip_prefix p' s' else None
  | String _ _, EmptyString => None
  end.

Fixpoint decode_value (fuel : nat) (s : string) : option (pyval * string) :=
  match fuel with
  | O => None
  | S fuel =>
      let s := skip_ws s in
      match s with
      | EmptyString => None
      | String c r =>
          if Ascii.eqb c "{" then
            match skip_ws r with
            | String c' r' =>
                if Ascii.eqb c' "}" then Some (PyDict ∅, r')
                else decode_members fuel (skip_ws r) ∅
            | EmptyString => None
            end
          else if Ascii.eqb c "[" then
            match skip_ws r with
            | String c' r' =>
                if Ascii.eqb c' "]" then Some (PyList [], r')
                else decode_elements fuel (skip_ws r) []
            | EmptyString => None
            end
          else if Ascii.eqb c dquote then
            match scan_string r with
            | Some (body, rest) => Some (PyStr body, rest)
            | None => None
            end
          else
            match strip_prefix "null" s, strip_prefix "true" s,
                  strip_prefix "false" s with
            | Some rest, _, _ => Some (PyNone, rest)
            | _, Some rest, _ => Some (PyBool true, rest)
            | _, _, Some rest => Some (PyBool false, rest)
            | None, None, None => scan_number s
            end
      end
  end
with decode_elements (fuel : nat) (s : string) (acc : list pyval)
  : option (pyval * string) :=
  match fuel with
  | O => None
  | S fuel =>
      match decode_value fuel s with
      | Some (v, rest) =>
          match skip_ws rest with
          | String c r =>
              if Ascii.eqb c "," then decode_elements fuel r (acc ++ [v])
              else if Ascii.eqb c "]" then Some (PyList (acc ++ [v]), r)
              else None
          | EmptyString => None
          end
      | None => None
      end
  end
with decode_members (fuel : nat) (s : string) (acc : gmap string pyval)
  : option (pyval * string) :=
  match fuel with
  | O => None
  | S fuel =>
      match skip_ws s with
      | String q r =>
          if Ascii.eqb q dquote then
            match scan_string r with
            | Some (name, rest) =>
                match skip_ws rest with
                | String c r' =>
                    if Ascii.eqb c ":" then
                      match decode_value fuel r' with
                      | Some (v, rest') =>
                          match skip_ws rest' with
                          | String c' r'' =>
                              if Ascii.eqb c' "," then
                                decode_members fuel r'' (<[name := v]> acc)
                              else if Ascii.eqb c' "}" then
                                Some (PyDict (<[name := v]> acc), r'')
                              else None
                          | EmptyString => None
                          end
                      | None => None
                      end
                    else None
                | EmptyString => None
                end
            | None => None
            end
          else None
      | EmptyString => None
      end
  end.

Definition decode (s : string) : outcome pyval :=
  match decode_value (2 * String.length s + 2) s with
  | Some (v, rest) =>
      match skip_ws rest with
      | EmptyString => Returned v
      | String _ _ => Raised (JSONDecodeError "Extra data")
      end
  | None => Raised (JSONDecodeError "Expecting value")
  end.

(** ** The handlers as functions of the provider's answer

    A handler sends one request and its outcome is a function of what
    [client.post] does with it.  [sent_request] is that request and
    [answer] that function; [handle_eq] below proves that [handle] is made
    of the two. *)

Definition groq_request (GROQ_API_KEY : string) (messages : list Message)
    (temperature : float) (max_tokens : Z) : Request :=
  {| url := GROQ_BASE_URL;
     headers :=
       <["Content-Type" := "application/json"]>
         (<["Authorization" := "Bearer " +:+ GROQ_API_KEY]> ∅);
     json :=
       {| model := "llama-3.1-70b-versatile";
          messages := messages;
          temperature := temperature;
          max_tokens := max_tokens;
          response_format := {["type" := "json_object"]} |};
     timeout := 30.0%float |}.

Definition sent_request (GROQ_API_KEY : string) (ep : endpoint)
    (input_data : TextInput) : Request :=
  groq_request GROQ_API_KEY
    [ {| role := "system"; content := system_message ep |};
      {| role := "user"; content := prompt ep input_data |} ]
    match ep with
    | AnalyzeMood => 0.2%float
    | DetectCrisis => 0.1%float
    | Summarize => 0.4%float
    end
    match ep with
    | AnalyzeMood => 100%Z
    | DetectCrisis => 150%Z
    | Summarize => 300%Z
    end.

(** The outcome of [call_groq_api], from the outcome of [client.post]. *)
Definition api_reply (str : exn -> string) (p : outcome Response) : outcome pyval :=
  match obind p (fun response =>
        obind (raise_for_status response) (fun _ => response_json response)) with
  | Raised e =>
      if isinstance_HTTPError e
      then Raised (HTTPException 500 ("API call failed: " +:+ str e))
      else Raised e
  | Returned v => Returned v
  end.

(** The record built from the parsed content. *)
Definition extract {pydantic : Pydantic} (ep : endpoint) (result : pyval)
  : outcome record :=
  match ep with
  | AnalyzeMood =>
      obind (getitem result (KStr "emotion")) (fun emotion =>
      obind (getitem result (KStr "confidence")) (fun confidence =>
      obind (MoodResponse_init emotion confidence) (fun r =>
      Returned (MoodRecord r))))
  | DetectCrisis =>
      obind (getitem result (KStr "crisis_detected")) (fun crisis_detected =>
      obind (getitem result (KStr "severity")) (fun severity =>
      obind (getitem result (KStr "confidence")) (fun confidence =>
      obind (CrisisResponse_init crisis_detected severity confidence) (fun r =>
      Returned (CrisisRecord r)))))
  | Summarize =>
      obind (getitem result (KStr "summary")) (fun summary =>
      obind (SummaryResponse_init summary) (fun r =>
      Returned (SummaryRecord r)))
  end.

Definition answer (str : exn -> string) (loads : string -> outcome pyval)
    {pydantic : Pydantic} (ep : endpoint) (p : outcome Response) : outcome record :=
  match obind (api_reply str p) (fun response =>
        obind (message_content response) (fun content =>
        obind (json_loads loads content) (extract ep))) with
  | Raised e => Raised (HTTPException 500 (error_prefix ep +:+ str e))
  | Returned r => Returned r
  end.

(** [parsed_reply loads p result]: the call returned a 2xx response whose
    body has the chat-completion shape, with a content string that
    [json.loads] decodes to [result]. *)
Definition parsed_reply (loads : string -> outcome pyval) (p : outcome Response)
    (result : pyval) : Prop :=
  exists response reply s,
    p = Returned response /\
    raise_for_status response = Returned tt /\
    response_json response = Returned reply /\
    message_content reply = Returned (PyStr s) /\
    loads s = Returned result.

(** The entries of the parsed object that the schema names are present. *)
Definition fields_present (ep : endpoint) (d : gmap string pyval) : Prop :=
  Forall (fun k => is_Some (d !! k)) (schema ep).

(** The entries are present and pass the validation of their fields. *)
Definition fields_valid {pydantic : Pydantic} (ep : endpoint)
    (d : gmap string pyval) : Prop :=
  match ep with
  | AnalyzeMood =>
      exists e c, d !! "emotion" = Some e /\ d !! "confidence" = Some c /\
        is_Some (validate_str e) /\ is_Some (validate_float c)
  | DetectCrisis =>
      exists b s c, d !! "crisis_detected" = Some b /\ d !! "severity" = Some s /\
        d !! "confidence" = Some c /\ is_Some (validate_bool b) /\
        is_Some (validate_str s) /\ is_Some (validate_float c)
  | Summarize =>
      exists s, d !! "summary" = Some s /\ is_Some (validate_str s)
  end.

(** The failures that the specification names: the outbound call fails (in
    transport, or by a status that is not 2xx), the content does not decode,
    or the decoded object lacks a field of the schema. *)
Inductive failure (loads : string -> outcome pyval) (ep : endpoint)
  : outcome Response -> Prop :=
| call_raised e : failure loads ep (Raised e)
| status_refused response e :
    raise_for_status response = Raised e ->
    failure loads ep (Returned response)
| content_malformed response reply s e :
    raise_for_status response = Returned tt ->
    response_json response = Returned reply ->
    message_content reply = Returned (PyStr s) ->
    loads s = Raised e ->
    failure loads ep (Returned response)
| field_missing response d k :
    parsed_reply loads (Returned response) (PyDict d) ->
    k ∈ schema ep ->
    d !! k = None ->
    failure loads ep (Returned response).

(** [raised_in_try str loads ep p e]: the [try] block of the handler of [ep]
    raises [e] when [client.post] does [p].  One constructor for each place
    where the block can raise, in the order in which it runs:
    - [client.post] raises: an [httpx.HTTPError] leaves [call_groq_api] as
      its 500, any other exception as it is;
    - [raise_for_status] refuses the status;
    - [response.json()] raises (a body that is not JSON);
    - [response["choices"][0]["message"]["content"]] raises (a body without
      [choices], [message] or [content], or of another shape);
    - [json.loads(content)] raises (a content that is not a string, or does
      not decode);
    - building the record raises (the decoded value is not an object, lacks
      a field of the schema, or holds a value that fails validation). *)
Inductive raised_in_try (str : exn -> string) (loads : string -> outcome pyval)
    (pydantic : Pydantic) (ep : endpoint) : outcome Response -> exn -> Prop :=
| transport_raised e :
    isinstance_HTTPError e = true ->
    raised_in_try str loads pydantic ep (Raised e)
      (HTTPException 500 ("API call failed: " +:+ str e))
| post_raised e :
    isinstance_HTTPError e = false ->
    raised_in_try str loads pydantic ep (Raised e) e
| status_raised response e :
    raise_for_status response = Raised e ->
    raised_in_try str loads pydantic ep (Returned response)
      (HTTPException 500 ("API call failed: " +:+ str e))
| body_raised response e :
    raise_for_status response = Returned tt ->
    response_json response = Raised e ->
    raised_in_try str loads pydantic ep (Returned response)
      (if isinstance_HTTPError e
       then HTTPException 500 ("API call failed: " +:+ str e)
       else e)
| shape_raised response reply e :
    raise_for_status response = Returned tt ->
    response_json response = Returned reply ->
    message_content reply = Raised e ->
    raised_in_try str loads pydantic ep (Returned response) e
| content_raised response reply content e :
    raise_for_status response = Returned tt ->
    response_json response = Returned reply ->
    message_content reply = Returned content ->
    json_loads loads content = Raised e ->
    raised_in_try str loads pydantic ep (Returned response) e
| record_raised response reply content result e :
    raise_for_status response = Returned tt ->
    response_json response = Returned reply ->
    message_content reply = Returned content ->
    json_loads loads content = Returned result ->
    extract ep result = Raised e ->
    raised_in_try str loads pydantic ep (Returned response) e.
Arguments raised_in_try str loads {pydantic} ep _ _.

(** ** An environment for worked examples *)

(** The validation that accepts the values of the field's own type and no
    other: what every version of pydantic accepts. *)
#[export] Instance exact_types : Pydantic := {|
  validate_str v := match v with PyStr s => Some s | _ => None end;
  validate_float v := match v with PyFloat f => Some f | _ => None end;
  validate_bool v := match v with PyBool b => Some b | _ => None end;
  validate_str_str _ := eq_refl;
  validate_float_float _ := eq_refl;
  validate_bool_bool _ := eq_refl;
  validate_str_None := eq_refl;
  validate_float_None := eq_refl;
  validate_bool_None := eq_refl
|}.

(** A rendering of [str(e)]: the message that the exception carries. *)
Definition message_of (e : exn) : string :=
  match e with
  | TransportError _ msg | IndexError msg | TypeError msg
  | JSONDecodeError msg | OtherException _ msg => msg
  | HTTPStatusError _ => "error response from the server"
  | HTTPException _ detail => detail
  | KeyError (KStr s) => "'" +:+ s +:+ "'"
  | KeyError (KInt _) => "integer key"
  | ValidationError model _ => "validation error for " +:+ model
  end.

(** A chat completion with one choice whose message has the given content. *)
Definition completion (content : pyval) : pyval :=
  PyDict {[ "choices" :=
    PyList [ PyDict {[ "message" :=
      PyDict (<["role" := PyStr "assistant"]> {[ "content" := content ]}) ]} ] ]}.

(** A provider that answers every request with status 200 and a completion
    of the given content. *)
Definition provider_says (content : string) : nat -> Request -> outcome Response :=
  fun _ _ =>
    Returned {| status_code := 200;
                response_json := Returned (completion (PyStr content)) |}.

(** A provider that follows a script, one entry per request, and cannot be
    reached once the script is over. *)
Definition provider_script (script : list (outcome Response))
  : nat -> Request -> outcome Response :=
  fun n _ =>
    default (Raised (TransportError "ConnectError" "All connection attempts failed"))
            (script !! n).

(** [{"emotion": "ecstatic", "confidence": 7.5}] *)
Definition ecstatic_content : string :=
  String.concat dq ["{"; "emotion"; ": "; "ecstatic"; ", "; "confidence"; ": 7.5}"].

(** [{"crisis_detected": true, "severity": "catastrophic", "confidence": -3.0}] *)
Definition catastrophic_content : string :=
  String.concat dq
    ["{"; "crisis_detected"; ": true, "; "severity"; ": "; "catastrophic"; ", ";
     "confidence"; ": -3.0}"].

(** [{"emotion": "sad", "confidence": null}] *)
Definition null_confidence_content : string :=
  String.concat dq ["{"; "emotion"; ": "; "sad"; ", "; "confidence"; ": null}"].

(** [{"emotion": "happy", "confidence": 0.9}] *)
Definition happy_content : string :=
  String.concat dq ["{"; "emotion"; ": "; "happy"; ", "; "confidence"; ": 0.9}"].

(** [{"crisis_detected": false, "severity": "low", "confidence": 0.8}] *)
Definition low_content : string :=
  String.concat dq
    ["{"; "crisis_detected"; ": false, "; "severity"; ": "; "low"; ", ";
     "confidence"; ": 0.8}"].

(** [{"summary": "A short text."}] *)
Definition summary_content : string :=
  String.concat dq ["{"; "summary"; ": "; "A short text."; "}"].

(** ** Configuration ([app/config.py]) *)

(** [os.getenv(name, fallback)] on the environment of the process. *)
Definition getenv (environ : gmap string string) (name fallback : string)
  : string :=
  default fallback (environ !! name).

(** [GROQ_API_KEY = os.getenv("GROQ_API_KEY", "your-groq-api-key-here")] *)
Definition load_api_key (environ : gmap string string) : string :=
  getenv environ "GROQ_API_KEY" "your-groq-api-key-here".

(** The first key of [keys] that the object lacks. *)
Definition first_missing (d : gmap string pyval) (keys : list string)
  : option string :=
  List.find (fun k => match d !! k with None => true | Some _ => false end) keys.

(** ** The informational endpoints *)

(** [GET /] *)
Definition root : pyval :=
  PyDict
    (<["message" := PyStr "MoodDecode NLP API is running!"]>
       (<["endpoints" :=
            PyDict
              (<["mood_analysis" := PyStr "/analyze_mood"]>
                 (<["crisis_detection" := PyStr "/detect_crisis"]>
                    {["text_summarization" := PyStr "/summarize"]}))]>
          {["status" := PyStr "healthy"]})).

(** [GET /health] *)
Definition health_check : pyval :=
  PyDict
    (<["status" := PyStr "healthy"]> {["api" := PyStr "MoodDecode NLP API"]}).

(** ** Logging setup ([app/main.py])

    The root logger and its handlers.  A handler is an object: two handlers
    are the same when they have the same identity, whatever they hold. *)

Inductive HandlerKind : Type :=
| RotatingFileHandler (filename : string) (maxBytes backupCount : Z)
| StreamHandler.

Record LogHandler : Type := {
  handler_id : nat;
  kind : HandlerKind;
  handler_level : Z;
  formatter : string
}.

Record Logger : Type := {
  logger_level : Z;
  handlers : list LogHandler
}.

Definition DEBUG : Z := 10.
Definition INFO : Z := 20.
Definition WARNING : Z := 30.
Definition ERROR : Z := 40.
Definition CRITICAL : Z := 50.

Definition ends_with_slash (s : string) : bool :=
  match String.rev s with
  | String c _ => Ascii.eqb c "/"
  | EmptyString => false
  end.

(** [os.path.join(a, b)] on POSIX. *)
Definition path_join (a b : string) : string :=
  match b with
  | String c _ =>
      if Ascii.eqb c "/" then b
      else if ends_with_slash a then a +:+ b
      else
        match a with
        | EmptyString => b
        | String _ _ => a +:+ "/" +:+ b
        end
  | EmptyString =>
      if ends_with_slash a then a
      else
        match a with
        | EmptyString => a
        | String _ _ => a +:+ "/"
        end
  end.

(** [logger.setLevel(level)] *)
Definition setLevel (level : Z) (logger : Logger) : Logger :=
  {| logger_level := level; handlers := handlers logger |}.

(** [logger.hasHandlers()] of the root logger, which has no parent. *)
Definition hasHandlers (logger : Logger) : bool :=
  match handlers logger with
  | [] => false
  | _ :: _ => true
  end.

(** [hdlr in logger.handlers] *)
Definition has_handler (hdlr : LogHandler) (logger : Logger) : bool :=
  existsb (fun h => Nat.eqb (handler_id h) (handler_id hdlr)) (handlers logger).

(** [logger.addHandler(hdlr)]: a handler already there is not added again. *)
Definition addHandler (hdlr : LogHandler) (logger : Logger) : Logger :=
  if has_handler hdlr logger then logger
  else {| logger_level := logger_level logger;
          handlers := handlers logger ++ [hdlr] |}.

(** [logger.handlers.clear()] *)
Definition clear_handlers (logger : Logger) : Logger :=
  {| logger_level := logger_level logger; handlers := [] |}.

(** The logging setup that [app/main.py] runs when it is loaded, on the
    root logger as it finds it.  [module_dir] is [os.path.dirname(__file__)];
    [file_id] and [console_id] are the identities of the two handler objects
    it creates.  The directory that [os.makedirs] creates is on the file
    system and not part of the logger. *)
Definition setup_logging (module_dir : string) (file_id console_id : nat)
    (logger : Logger) : Logger :=
  let log_dir := path_join module_dir "logs" in
  let log_file := path_join log_dir "error.log" in
  let logger := setLevel INFO logger in
  let file_handler :=
    {| handler_id := file_id;
       kind := RotatingFileHandler log_file (1024 * 1024) 3;
       handler_level := ERROR;
       formatter := "%(asctime)s - %(levelname)s - %(message)s" |} in
  let console_handler :=
    {| handler_id := console_id;
       kind := StreamHandler;
       handler_level := INFO;
       formatter := "%(levelname)s - %(message)s" |} in
  if negb (hasHandlers logger) then
    addHandler console_handler (addHandler file_handler logger)
  else
    addHandler console_handler
      (addHandler file_handler (clear_handlers logger)).

(** The handlers that the root logger passes a record of level [levelno]
    to: none when the logger is not enabled for the level
    ([Logger.isEnabledFor]), else those whose own level the record reaches
    ([Logger.callHandlers]). *)
Definition receivers (logger : Logger) (levelno : Z) : list LogHandler :=
  if (logger_level logger <=? levelno)%Z then
    List.filter (fun h => (handler_level h <=? levelno)%Z) (handlers logger)
  else [].

(** [{"emotion": "happy", "confidence": 0.9, "note": "sure"}] *)
Definition annotated_content : string :=
  String.concat dq
    ["{"; "emotion"; ": "; "happy"; ", "; "confidence"; ": 0.9, "; "note"; ": ";
     "sure"; "}"].

(** A response with status 200 whose body is not JSON. *)
Definition html_response : outcome Response :=
  Returned {| status_code := 200;
              response_json := Raised (JSONDecodeError "Expecting value") |}.

(** A root logger that has a handler already. *)
Definition used_logger : Logger :=
  {| logger_level := WARNING;
     handlers :=
       [ {| handler_id := 1;
            kind := StreamHandler;
            handler_level := 0;
            formatter := "%(message)s" |} ] |}.

(** Values for the worked examples. *)
Definition example_key : string := "gsk_example".

Definition example_input : TextInput := {| text := "I passed my exam today" |}.

(** * Properties *)

Section ServiceFacts.

Variable GROQ_API_KEY : string.
Variable str : exn -> string.
Variable loads : string -> outcome pyval.
Variable post : nat -> Request -> outcome Response.
Context {pydantic : Pydantic}.

Lemma append_assoc (a b c : string) : (a +:+ b) +:+ c = a +:+ (b +:+ c).
Proof.
  induction a as [|x a IH]; [reflexivity|].
  unfold String.app in *. simpl. now rewrite IH.
Qed.

Lemma prefix_append (a b : string) : String.prefix a (a +:+ b) = true.
Proof.
  induction a as [|x a IH]; [now destruct b|].
  unfold String.app in *. simpl. now destruct (ascii_dec x x).
Qed.

(** An f-string with the text between two quotes is a prefix, the text and
    a suffix. *)
Lemma concat_around (head : string) (t : string) (next : string)
    (rest : list string) :
  String.concat dq (head :: t :: next :: rest) =
  (head +:+ dq) +:+ t +:+ (dq +:+ String.concat dq (next :: rest)).
Proof. now rewrite append_assoc. Qed.

Lemma prompt_split (ep : endpoint) (input_data : TextInput) :
  prompt ep input_data =
  prompt_prefix ep +:+ text input_data +:+ prompt_suffix ep.
Proof. destruct ep; apply concat_around. Qed.

(** Subscripting by a [str] key returns only from a [dict] that has it. *)
Lemma getitem_str_returned (v : pyval) (k : string) (x : pyval) :
  getitem v (KStr k) = Returned x <-> exists d, v = PyDict d /\ d !! k = Some x.
Proof.
  split.
  - destruct v as [| | | | |l|d]; simpl; try discriminate.
    destruct (d !! k) as [y|] eqn:E; [|discriminate].
    intros [= ->]. now exists d.
  - intros (d & -> & E). simpl. now rewrite E.
Qed.

Lemma getitem_str_raised (d : gmap string pyval) (k : string) :
  d !! k = None -> getitem (PyDict d) (KStr k) = Raised (KeyError (KStr k)).
Proof. intros E. simpl. now rewrite E. Qed.

Lemma call_groq_api_eq (messages : list Message) (t : option float)
    (m : option Z) (log : list Request) :
  call_groq_api GROQ_API_KEY str post messages t m log =
  (api_reply str
     (post (length log)
        (groq_request GROQ_API_KEY messages (default 0.3%float t) (default 150%Z m))),
   log ++ [groq_request GROQ_API_KEY messages (default 0.3%float t) (default 150%Z m)]).
Proof.
  unfold call_groq_api, try_except, bind, client_post, lift, api_reply.
  fold (groq_request GROQ_API_KEY messages (default 0.3%float t) (default 150%Z m)).
  destruct (post _ _) as [e|response]; cbn [obind].
  - destruct (isinstance_HTTPError e); reflexivity.
  - destruct (raise_for_status response) as [e|[]]; cbn [obind].
    + destruct (isinstance_HTTPError e); reflexivity.
    + destruct (response_json response) as [e|v]; [|reflexivity].
      destruct (isinstance_HTTPError e); reflexivity.
Qed.

(** A handler sends [sent_request] and answers with [answer]. *)
Lemma handle_eq (ep : endpoint) (input_data : TextInput) (log : list Request) :
  handle GROQ_API_KEY str loads post ep input_data log =
  (answer str loads ep
     (post (length log) (sent_request GROQ_API_KEY ep input_data)),
   log ++ [sent_request GROQ_API_KEY ep input_data]).
Proof.
  destruct ep;
    unfold handle, analyze_mood, detect_crisis, summarize_text, answer,
      sent_request, extract, system_message, prompt, error_prefix;
    unfold bind at 1; unfold try_except; unfold bind at 1;
    rewrite call_groq_api_eq; cbn [default];
    destruct (api_reply _ _) as [e|response]; cbn [obind isinstance_Exception];
    try reflexivity;
    unfold bind, lift, ret, raise;
    repeat match goal with
      | |- context [match ?o with Raised _ => _ | Returned _ => _ end] =>
          destruct o; cbn [obind]; try reflexivity
      end.
Qed.

Lemma handle_log (ep : endpoint) (input_data : TextInput) (log : list Request) :
  (handle GROQ_API_KEY str loads post ep input_data log).2 =
  log ++ [sent_request GROQ_API_KEY ep input_data].
Proof. now rewrite handle_eq. Qed.

Lemma handle_outcome (ep : endpoint) (input_data : TextInput) (log : list Request) :
  (handle GROQ_API_KEY str loads post ep input_data log).1 =
  answer str loads ep (post (length log) (sent_request GROQ_API_KEY ep input_data)).
Proof. now rewrite handle_eq. Qed.

(** Whatever a handler raises is a 500 with the handler's prefix. *)
Lemma answer_raised (ep : endpoint) (p : outcome Response) (e : exn) :
  answer str loads ep p = Raised e ->
  exists msg, e = HTTPException 500 (error_prefix ep +:+ msg).
Proof.
  unfold answer.
  destruct (obind (api_reply str p) _) as [e'|r]; [|discriminate].
  intros [= <-]. now exists (str e').
Qed.

(** [json.loads] returns only for a [str]. *)
Lemma json_loads_returned (content result : pyval) :
  json_loads loads content = Returned result <->
  exists s, content = PyStr s /\ loads s = Returned result.
Proof.
  split.
  - destruct content; simpl; try discriminate. intros E. eauto.
  - now intros (s & -> & E).
Qed.

(** A handler returns exactly when the reply decodes and the record can be
    built from the decoded value. *)
Lemma answer_returned (ep : endpoint) (p : outcome Response) (r : record) :
  answer str loads ep p = Returned r <->
  exists result, parsed_reply loads p result /\ extract ep result = Returned r.
Proof.
  unfold answer, api_reply, parsed_reply. split.
  - destruct p as [e|response]; cbn [obind].
    { destruct (isinstance_HTTPError e); discriminate. }
    destruct (raise_for_status response) as [e|[]] eqn:Es; cbn [obind].
    { destruct (isinstance_HTTPError e); discriminate. }
    destruct (response_json response) as [e|reply] eqn:Ej; cbn [obind].
    { destruct (isinstance_HTTPError e); discriminate. }
    destruct (message_content reply) as [e|content] eqn:Ec; cbn [obind];
      [discriminate|].
    destruct (json_loads loads content) as [e|result] eqn:El; cbn [obind];
      [discriminate|].
    apply json_loads_returned in El as (s & -> & El).
    destruct (extract ep result) as [e|r'] eqn:Ex; [discriminate|].
    intros [= ->]. exists result. split; [|assumption].
    now exists response, reply, s.
  - intros (result & (response & reply & s & -> & Es & Ej & Ec & El) & Ex).
    cbn [obind]. rewrite Es. cbn [obind]. rewrite Ej. cbn [obind].
    rewrite Ec. cbn [obind json_loads]. rewrite El. cbn [obind].
    now rewrite Ex.
Qed.

(** The decoded value of a reply is unique. *)
Lemma parsed_reply_unique (p : outcome Response) (result result' : pyval) :
  parsed_reply loads p result -> parsed_reply loads p result' -> result = result'.
Proof.
  intros (response & reply & s & -> & _ & Ej & Ec & El)
         (response' & reply' & s' & [= <-] & _ & Ej' & Ec' & El').
  congruence.
Qed.

(** When each handler builds its record. *)
Lemma extract_mood (result : pyval) (r : record) :
  extract AnalyzeMood result = Returned r <->
  exists d e c e' c',
    result = PyDict d /\ d !! "emotion" = Some e /\ d !! "confidence" = Some c /\
    validate_str e = Some e' /\ validate_float c = Some c' /\
    r = MoodRecord (MoodResponse.mk e' c').
Proof.
  unfold extract, MoodResponse_init. split.
  - destruct (getitem result (KStr "emotion")) as [?|e] eqn:Ge; [discriminate|].
    destruct (getitem result (KStr "confidence")) as [?|c] eqn:Gc; [discriminate|].
    apply getitem_str_returned in Ge as (d & -> & Ge).
    apply getitem_str_returned in Gc as (d' & [= <-] & Gc).
    cbn [obind].
    destruct (validate_str e) as [e'|] eqn:Ve, (validate_float c) as [c'|] eqn:Vc;
      try discriminate.
    intros [= <-]. now exists d, e, c, e', c'.
  - intros (d & e & c & e' & c' & -> & Ge & Gc & Ve & Vc & ->).
    simpl. rewrite Ge, Gc. simpl. now rewrite Ve, Vc.
Qed.

Lemma extract_crisis (result : pyval) (r : record) :
  extract DetectCrisis result = Returned r <->
  exists d b s c b' s' c',
    result = PyDict d /\ d !! "crisis_detected" = Some b /\
    d !! "severity" = Some s /\ d !! "confidence" = Some c /\
    validate_bool b = Some b' /\ validate_str s = Some s' /\
    validate_float c = Some c' /\
    r = CrisisRecord (CrisisResponse.mk b' s' c').
Proof.
  unfold extract, CrisisResponse_init. split.
  - destruct (getitem result (KStr "crisis_detected")) as [?|b] eqn:Gb;
      [discriminate|].
    destruct (getitem result (KStr "severity")) as [?|s] eqn:Gs; [discriminate|].
    destruct (getitem result (KStr "confidence")) as [?|c] eqn:Gc; [discriminate|].
    apply getitem_str_returned in Gb as (d & -> & Gb).
    apply getitem_str_returned in Gs as (d' & [= <-] & Gs).
    apply getitem_str_returned in Gc as (d' & [= <-] & Gc).
    cbn [obind].
    destruct (validate_bool b) as [b'|] eqn:Vb, (validate_str s) as [s'|] eqn:Vs,
      (validate_float c) as [c'|] eqn:Vc; try discriminate.
    intros [= <-]. now exists d, b, s, c, b', s', c'.
  - intros (d & b & s & c & b' & s' & c' & -> & Gb & Gs & Gc & Vb & Vs & Vc & ->).
    simpl. rewrite Gb, Gs, Gc. simpl. now rewrite Vb, Vs, Vc.
Qed.

Lemma extract_summary (result : pyval) (r : record) :
  extract Summarize result = Returned r <->
  exists d s s',
    result = PyDict d /\ d !! "summary" = Some s /\ validate_str s = Some s' /\
    r = SummaryRecord (SummaryResponse.mk s').
Proof.
  unfold extract, SummaryResponse_init. split.
  - destruct (getitem result (KStr "summary")) as [?|s] eqn:Gs; [discriminate|].
    apply getitem_str_returned in Gs as (d & -> & Gs).
    cbn [obind].
    destruct (validate_str s) as [s'|] eqn:Vs; try discriminate.
    intros [= <-]. now exists d, s, s'.
  - intros (d & s & s' & -> & Gs & Vs & ->).
    simpl. rewrite Gs. simpl. now rewrite Vs.
Qed.
(** The handlers behind the three routes. *)
Lemma analyze_mood_handle (input_data : TextInput) (log : list Request)
    (r : MoodResponse.t) :
  (analyze_mood GROQ_API_KEY str loads post input_data log).1 = Returned r <->
  (handle GROQ_API_KEY str loads post AnalyzeMood input_data log).1
  = Returned (MoodRecord r).
Proof.
  unfold handle, bind, ret.
  destruct (analyze_mood _ _ _ _ _ _) as [[e|a] log']; simpl;
    split; congruence.
Qed.

Lemma detect_crisis_handle (input_data : TextInput) (log : list Request)
    (r : CrisisResponse.t) :
  (detect_crisis GROQ_API_KEY str loads post input_data log).1 = Returned r <->
  (handle GROQ_API_KEY str loads post DetectCrisis input_data log).1
  = Returned (CrisisRecord r).
Proof.
  unfold handle, bind, ret.
  destruct (detect_crisis _ _ _ _ _ _) as [[e|a] log']; simpl;
    split; congruence.
Qed.

Lemma summarize_text_handle (input_data : TextInput) (log : list Request)
    (r : SummaryResponse.t) :
  (summarize_text GROQ_API_KEY str loads post input_data log).1 = Returned r <->
  (handle GROQ_API_KEY str loads post Summarize input_data log).1
  = Returned (SummaryRecord r).
Proof.
  unfold handle, bind, ret.
  destruct (summarize_text _ _ _ _ _ _) as [[e|a] log']; simpl;
    split; congruence.
Qed.

Lemma analyze_mood_returned (input_data : TextInput) (log : list Request)
    (r : MoodResponse.t) :
  (analyze_mood GROQ_API_KEY str loads post input_data log).1 = Returned r <->
  exists d e c,
    parsed_reply loads
      (post (length log) (sent_request GROQ_API_KEY AnalyzeMood input_data))
      (PyDict d) /\
    d !! "emotion" = Some e /\ d !! "confidence" = Some c /\
    validate_str e = Some (MoodResponse.emotion r) /\
    validate_float c = Some (MoodResponse.confidence r).
Proof.
  rewrite analyze_mood_handle, handle_outcome, answer_returned. split.
  - intros (result & Hp & Hx).
    apply extract_mood in Hx as (d & e & c & e' & c' & -> & ? & ? & ? & ? & [= ->]).
    now exists d, e, c.
  - intros (d & e & c & Hp & Ge & Gc & Ve & Vc).
    exists (PyDict d). split; [assumption|].
    apply extract_mood. exists d, e, c. destruct r as [e' c']. eauto 10.
Qed.

Lemma detect_crisis_returned (input_data : TextInput) (log : list Request)
    (r : CrisisResponse.t) :
  (detect_crisis GROQ_API_KEY str loads post input_data log).1 = Returned r <->
  exists d b s c,
    parsed_reply loads
      (post (length log) (sent_request GROQ_API_KEY DetectCrisis input_data))
      (PyDict d) /\
    d !! "crisis_detected" = Some b /\ d !! "severity" = Some s /\
    d !! "confidence" = Some c /\
    validate_bool b = Some (CrisisResponse.crisis_detected r) /\
    validate_str s = Some (CrisisResponse.severity r) /\
    validate_float c = Some (CrisisResponse.confidence r).
Proof.
  rewrite detect_crisis_handle, handle_outcome, answer_returned. split.
  - intros (result & Hp & Hx).
    apply extract_crisis in Hx
      as (d & b & s & c & b' & s' & c' & -> & ? & ? & ? & ? & ? & ? & [= ->]).
    now exists d, b, s, c.
  - intros (d & b & s & c & Hp & Gb & Gs & Gc & Vb & Vs & Vc).
    exists (PyDict d). split; [assumption|].
    apply extract_crisis. exists d, b, s, c. destruct r as [b' s' c']. eauto 12.
Qed.

Lemma summarize_text_returned (input_data : TextInput) (log : list Request)
    (r : SummaryResponse.t) :
  (summarize_text GROQ_API_KEY str loads post input_data log).1 = Returned r <->
  exists d s,
    parsed_reply loads
      (post (length log) (sent_request GROQ_API_KEY Summarize input_data))
      (PyDict d) /\
    d !! "summary" = Some s /\
    validate_str s = Some (SummaryResponse.summary r).
Proof.
  rewrite summarize_text_handle, handle_outcome, answer_returned. split.
  - intros (result & Hp & Hx).
    apply extract_summary in Hx as (d & s & s' & -> & ? & ? & [= ->]).
    now exists d, s.
  - intros (d & s & Hp & Gs & Vs).
    exists (PyDict d). split; [assumption|].
    apply extract_summary. exists d, s. destruct r as [s']. eauto 10.
Qed.

(** C1, as amended.  A record that [analyze_mood] returns holds the
    validated [emotion] and [confidence] entries of the object decoded from
    the provider's reply.  When these entries are a string and a float, the
    emotion of the record is in the enumerated set exactly when the
    provider's is, and its confidence is in [0,1] exactly when the
    provider's is: the service itself enforces neither. *)
Theorem analyze_mood_fields_as_provided (input_data : TextInput)
    (log : list Request) (r : MoodResponse.t) :
  (analyze_mood GROQ_API_KEY str loads post input_data log).1 = Returned r ->
  exists d e c,
    parsed_reply loads
      (post (length log) (sent_request GROQ_API_KEY AnalyzeMood input_data))
      (PyDict d) /\
    d !! "emotion" = Some e /\ d !! "confidence" = Some c /\
    validate_str e = Some (MoodResponse.emotion r) /\
    validate_float c = Some (MoodResponse.confidence r) /\
    (forall s, e = PyStr s ->
       (In (MoodResponse.emotion r) EMOTIONS <-> In s EMOTIONS)) /\
    (forall f, c = PyFloat f ->
       in_unit_interval (MoodResponse.confidence r) = in_unit_interval f).
Proof.
  intros (d & e & c & Hp & Ge & Gc & Ve & Vc)%analyze_mood_returned.
  exists d, e, c. do 5 (split; [assumption|]). split.
  - intros s ->. rewrite validate_str_str in Ve. now injection Ve as ->.
  - intros f ->. rewrite validate_float_float in Vc. now injection Vc as ->.
Qed.

(** C2, as amended.  A record that [detect_crisis] returns holds the
    validated [crisis_detected], [severity] and [confidence] entries of the
    object decoded from the provider's reply; [crisis_detected] is a boolean.
    When the severity and confidence entries are a string and a float, the
    severity of the record is in the enumerated set exactly when the
    provider's is, and its confidence is in [0,1] exactly when the
    provider's is: the service itself enforces neither. *)
Theorem detect_crisis_fields_as_provided (input_data : TextInput)
    (log : list Request) (r : CrisisResponse.t) :
  (detect_crisis GROQ_API_KEY str loads post input_data log).1 = Returned r ->
  exists d b s c,
    parsed_reply loads
      (post (length log) (sent_request GROQ_API_KEY DetectCrisis input_data))
      (PyDict d) /\
    d !! "crisis_detected" = Some b /\ d !! "severity" = Some s /\
    d !! "confidence" = Some c /\
    validate_bool b = Some (CrisisResponse.crisis_detected r) /\
    validate_str s = Some (CrisisResponse.severity r) /\
    validate_float c = Some (CrisisResponse.confidence r) /\
    (forall s', s = PyStr s' ->
       (In (CrisisResponse.severity r) SEVERITIES <-> In s' SEVERITIES)) /\
    (forall f, c = PyFloat f ->
       in_unit_interval (CrisisResponse.confidence r) = in_unit_interval f).
Proof.
  intros (d & b & s & c & Hp & Gb & Gs & Gc & Vb & Vs & Vc)%detect_crisis_returned.
  exists d, b, s, c. do 7 (split; [assumption|]). split.
  - intros s' ->. rewrite validate_str_str in Vs. now injection Vs as ->.
  - intros f ->. rewrite validate_float_float in Vc. now injection Vc as ->.
Qed.

(** C9.  On success the fields of the record are the values found under the
    corresponding keys of the object decoded from the provider's reply, as
    pydantic's validation of the field's type returns them; a string under
    [emotion], [severity] or [summary] and a float under [confidence] are
    returned as they are. *)
Theorem fields_pass_through (input_data : TextInput) (log : list Request) :
  (forall r,
     (analyze_mood GROQ_API_KEY str loads post input_data log).1 = Returned r ->
     exists d e c,
       parsed_reply loads
         (post (length log) (sent_request GROQ_API_KEY AnalyzeMood input_data))
         (PyDict d) /\
       d !! "emotion" = Some e /\ d !! "confidence" = Some c /\
       validate_str e = Some (MoodResponse.emotion r) /\
       validate_float c = Some (MoodResponse.confidence r) /\
       (forall s, e = PyStr s -> MoodResponse.emotion r = s) /\
       (forall f, c = PyFloat f -> MoodResponse.confidence r = f)) /\
  (forall r,
     (detect_crisis GROQ_API_KEY str loads post input_data log).1 = Returned r ->
     exists d b s c,
       parsed_reply loads
         (post (length log) (sent_request GROQ_API_KEY DetectCrisis input_data))
         (PyDict d) /\
       d !! "crisis_detected" = Some b /\ d !! "severity" = Some s /\
       d !! "confidence" = Some c /\
       validate_bool b = Some (CrisisResponse.crisis_detected r) /\
       validate_str s = Some (CrisisResponse.severity r) /\
       validate_float c = Some (CrisisResponse.confidence r) /\
       (forall s', s = PyStr s' -> CrisisResponse.severity r = s') /\
       (forall f, c = PyFloat f -> CrisisResponse.confidence r = f)) /\
  (forall r,
     (summarize_text GROQ_API_KEY str loads post input_data log).1 = Returned r ->
     exists d s,
       parsed_reply loads
         (post (length log) (sent_request GROQ_API_KEY Summarize input_data))
         (PyDict d) /\
       d !! "summary" = Some s /\
       validate_str s = Some (SummaryResponse.summary r) /\
       (forall s', s = PyStr s' -> SummaryResponse.summary r = s')).
Proof.
  split; [|split].
  - intros r (d & e & c & Hp & Ge & Gc & Ve & Vc)%analyze_mood_returned.
    exists d, e, c. do 5 (split; [assumption|]). split.
    + intros s ->. rewrite validate_str_str in Ve. now injection Ve.
    + intros f ->. rewrite validate_float_float in Vc. now injection Vc.
  - intros r
      (d & b & s & c & Hp & Gb & Gs & Gc & Vb & Vs & Vc)%detect_crisis_returned.
    exists d, b, s, c. do 7 (split; [assumption|]). split.
    + intros s' ->. rewrite validate_str_str in Vs. now injection Vs.
    + intros f ->. rewrite validate_float_float in Vc. now injection Vc.
  - intros r (d & s & Hp & Gs & Vs)%summarize_text_returned.
    exists d, s. do 3 (split; [assumption|]).
    intros s' ->. rewrite validate_str_str in Vs. now injection Vs.
Qed.
(** Index 0 of a list is its first element. *)
Lemma py_index_0 {A} (l : list A) : py_index l 0 = l !! 0%nat.
Proof. unfold py_index. now destruct l. Qed.

(** X4.  [response["choices"][0]["message"]["content"]] returns exactly when
    the reply has the chat-completion shape: an object whose [choices] is a list
    that starts with an object, whose [message] is an object with a
    [content]. *)
Lemma message_content_returned (reply content : pyval) :
  message_content reply = Returned content <->
  exists d choices choice message,
    reply = PyDict d /\ d !! "choices" = Some (PyList choices) /\
    choices !! 0%nat = Some (PyDict choice) /\
    choice !! "message" = Some (PyDict message) /\
    message !! "content" = Some content.
Proof.
  unfold message_content. split.
  - destruct (getitem reply (KStr "choices")) as [?|v] eqn:G1; [discriminate|].
    apply getitem_str_returned in G1 as (d & -> & G1). cbn [obind].
    destruct (getitem v (KInt 0)) as [?|choice] eqn:G2; [discriminate|].
    cbn [obind].
    destruct (getitem choice (KStr "message")) as [?|m] eqn:G3; [discriminate|].
    cbn [obind]. intros G4.
    apply getitem_str_returned in G3 as (dc & -> & G3).
    apply getitem_str_returned in G4 as (dm & -> & G4).
    destruct v as [| | | |s|l|dv]; simpl in G2; try discriminate.
    + destruct (py_index (codepoints s) 0); discriminate.
    + rewrite py_index_0 in G2.
      destruct (l !! 0%nat) as [x|] eqn:E; [|discriminate].
      injection G2 as ->. now exists d, l, dc, dm.
  - intros (d & choices & choice & m & -> & G1 & G2 & G3 & G4).
    simpl. rewrite G1. simpl. rewrite py_index_0, G2. simpl.
    rewrite G3. simpl. now rewrite G4.
Qed.

(** A [null] under a field of the schema fails the validation, whatever the
    version of pydantic. *)
Lemma null_entry_refused (ep : endpoint) (d : gmap string pyval) (k : string) :
  k ∈ schema ep -> d !! k = Some PyNone -> ~ fields_valid ep d.
Proof.
  intros Hk%list_elem_of_In Hd Hv.
  pose proof validate_str_None. pose proof validate_float_None.
  pose proof validate_bool_None.
  destruct ep; simpl in Hk, Hv.
  - destruct Hv as (e & c & Ge & Gc & [? Ve] & [? Vc]).
    destruct Hk as [<-|[<-|[]]]; congruence.
  - destruct Hv as (b & s & c & Gb & Gs & Gc & [? Vb] & [? Vs] & [? Vc]).
    destruct Hk as [<-|[<-|[<-|[]]]]; congruence.
  - destruct Hv as (s & Gs & [? Vs]).
    destruct Hk as [<-|[]]; congruence.
Qed.

(** None of the failures lets a handler return. *)
Lemma failure_raises (ep : endpoint) (p : outcome Response) :
  failure loads ep p ->
  exists msg, answer str loads ep p = Raised (HTTPException 500 (error_prefix ep +:+ msg)).
Proof.
  intros Hf. destruct (answer str loads ep p) as [e|r] eqn:Ea.
  { apply answer_raised in Ea as (msg & ->). now exists msg. }
  exfalso. apply answer_returned in Ea as (result & Hp & Hx).
  destruct Hf as [e|response e Es|response reply s e Es Ej Ec El|response d k Hp' Hk Hd].
  - now destruct Hp as (? & ? & ? & [=] & _).
  - destruct Hp as (? & ? & ? & [= <-] & Es' & _). congruence.
  - destruct Hp as (? & ? & ? & [= <-] & _ & Ej' & Ec' & El'). congruence.
  - rewrite (parsed_reply_unique _ _ _ Hp Hp') in Hx. clear Hp Hp'.
    apply list_elem_of_In in Hk.
    destruct ep; simpl in Hk.
    + apply extract_mood in Hx as (d' & ? & ? & ? & ? & [= <-] & ? & ? & _).
      intuition congruence.
    + apply extract_crisis
        in Hx as (d' & ? & ? & ? & ? & ? & ? & [= <-] & ? & ? & ? & _).
      intuition congruence.
    + apply extract_summary in Hx as (d' & ? & ? & [= <-] & ? & _).
      intuition congruence.
Qed.

(** The [try] block of a handler raises [e] exactly when one of its steps
    does. *)
Lemma raised_in_try_iff (ep : endpoint) (p : outcome Response) (e : exn) :
  raised_in_try str loads ep p e <->
  obind (api_reply str p) (fun response =>
    obind (message_content response) (fun content =>
    obind (json_loads loads content) (extract ep))) = Raised e.
Proof.
  unfold api_reply. split.
  - intros [e0 He|e0 He|response e0 Es|response e0 Es Ej|response reply e0 Es Ej Ec
            |response reply content e0 Es Ej Ec El
            |response reply content result e0 Es Ej Ec El Ex]; cbn [obind].
    + now rewrite He.
    + now rewrite He.
    + rewrite Es. cbn [obind].
      unfold raise_for_status in Es.
      destruct (_ && _) in Es; [discriminate|]. now injection Es as <-.
    + rewrite Es. cbn [obind]. rewrite Ej.
      now destruct (isinstance_HTTPError e0).
    + rewrite Es. cbn [obind]. rewrite Ej. cbn [obind]. now rewrite Ec.
    + rewrite Es. cbn [obind]. rewrite Ej. cbn [obind]. rewrite Ec.
      cbn [obind]. now rewrite El.
    + rewrite Es. cbn [obind]. rewrite Ej. cbn [obind]. rewrite Ec.
      cbn [obind]. rewrite El. cbn [obind]. exact Ex.
  - destruct p as [e0|response]; cbn [obind].
    { destruct (isinstance_HTTPError e0) eqn:He; cbn [obind]; intros [= <-].
      - now apply transport_raised.
      - now apply post_raised. }
    destruct (raise_for_status response) as [e0|[]] eqn:Es; cbn [obind].
    { assert (isinstance_HTTPError e0 = true) as ->.
      { unfold raise_for_status in Es.
        destruct (_ && _) in Es; [discriminate|]. now injection Es as <-. }
      cbn [obind]. intros [= <-]. now apply status_raised. }
    destruct (response_json response) as [e0|reply] eqn:Ej; cbn [obind].
    { intros H.
      assert (e = if isinstance_HTTPError e0
                  then HTTPException 500 ("API call failed: " +:+ str e0)
                  else e0) as ->
        by (destruct (isinstance_HTTPError e0); cbn [obind] in H; congruence).
      now apply body_raised. }
    destruct (message_content reply) as [e0|content] eqn:Ec; cbn [obind].
    { intros [= <-]. now apply shape_raised with reply. }
    destruct (json_loads loads content) as [e0|result] eqn:El; cbn [obind].
    { intros [= <-]. now apply content_raised with reply content. }
    intros Ex. now apply record_raised with reply content result.
Qed.

(** C3.  Every failure ends in one kind of outcome.  A handler raises
    exactly when a step of its [try] block raises (the outbound call fails in
    transport, by its status or while the body is read; the body has not the
    chat-completion shape; the content is not a string or does not decode;
    the decoded value is not an object, lacks a field or holds an invalid
    one), and what it raises is then the [HTTPException] of status 500 whose
    detail is the handler's prefix followed by the message of that
    exception.  It returns a record exactly when no step raises, so that no
    failure yields a record; and the failures that the specification names
    are among the steps that raise. *)
Theorem failures_collapse_to_500 (ep : endpoint) (input_data : TextInput)
    (log : list Request) :
  (forall x,
     (handle GROQ_API_KEY str loads post ep input_data log).1 = Raised x <->
     exists e,
       raised_in_try str loads ep
         (post (length log) (sent_request GROQ_API_KEY ep input_data)) e /\
       x = HTTPException 500 (error_prefix ep +:+ str e)) /\
  ((exists r,
      (handle GROQ_API_KEY str loads post ep input_data log).1 = Returned r) <->
   ~ (exists e,
        raised_in_try str loads ep
          (post (length log) (sent_request GROQ_API_KEY ep input_data)) e)) /\
  (failure loads ep
     (post (length log) (sent_request GROQ_API_KEY ep input_data)) ->
   exists e,
     raised_in_try str loads ep
       (post (length log) (sent_request GROQ_API_KEY ep input_data)) e).
Proof.
  rewrite handle_outcome.
  set (p := post (length log) (sent_request GROQ_API_KEY ep input_data)).
  assert (Hraised : forall x,
    answer str loads ep p = Raised x <->
    exists e, raised_in_try str loads ep p e /\
              x = HTTPException 500 (error_prefix ep +:+ str e)).
  { intros x. unfold answer. split.
    - destruct (obind (api_reply str p) _) as [e|r] eqn:E; [|discriminate].
      intros [= <-]. exists e. split; [|reflexivity].
      now apply raised_in_try_iff.
    - intros (e & He%raised_in_try_iff & ->). now rewrite He. }
  split; [exact Hraised|]. split.
  - split.
    + intros [r Hr] (e & He%raised_in_try_iff).
      unfold answer in Hr. rewrite He in Hr. discriminate.
    + intros Hno. destruct (answer str loads ep p) as [x|r] eqn:E.
      * exfalso. apply Hno.
        destruct (proj1 (Hraised x) eq_refl) as (e & He & _). now exists e.
      * now exists r.
  - intros (msg & Hf)%failure_raises.
    apply Hraised in Hf as (e & He & _). now exists e.
Qed.

(** C4, as amended.  An endpoint returns a record if and only if the
    outbound call returns a 2xx response whose body has the chat-completion
    shape, the content is a string that decodes to a JSON object, and every
    field of the schema is present in it with a value that passes the
    validation of the field's type.  A content that does not decode yields
    an error response. *)
Theorem record_iff_valid_reply (ep : endpoint) (input_data : TextInput)
    (log : list Request) :
  ((exists r,
      (handle GROQ_API_KEY str loads post ep input_data log).1 = Returned r) <->
   (exists d,
      parsed_reply loads
        (post (length log) (sent_request GROQ_API_KEY ep input_data)) (PyDict d) /\
      fields_valid ep d)) /\
  (forall response reply s e,
     post (length log) (sent_request GROQ_API_KEY ep input_data)
     = Returned response ->
     raise_for_status response = Returned tt ->
     response_json response = Returned reply ->
     message_content reply = Returned (PyStr s) ->
     loads s = Raised e ->
     exists msg,
       (handle GROQ_API_KEY str loads post ep input_data log).1
       = Raised (HTTPException 500 (error_prefix ep +:+ msg))).
Proof.
  rewrite handle_outcome. split; [split|].
  - intros (r & (result & Hp & Hx)%answer_returned).
    destruct ep; simpl.
    + apply extract_mood in Hx as (d & e & c & e' & c' & -> & ? & ? & ? & ? & _).
      exists d. split; [assumption|]. exists e, c. eauto 10.
    + apply extract_crisis
        in Hx as (d & b & s & c & b' & s' & c' & -> & ? & ? & ? & ? & ? & ? & _).
      exists d. split; [assumption|]. exists b, s, c. eauto 12.
    + apply extract_summary in Hx as (d & s & s' & -> & ? & ? & _).
      exists d. split; [assumption|]. exists s. eauto.
  - intros (d & Hp & Hv). destruct ep; simpl in Hv.
    + destruct Hv as (e & c & Ge & Gc & [e' Ve] & [c' Vc]).
      exists (MoodRecord (MoodResponse.mk e' c')).
      apply answer_returned. exists (PyDict d). split; [assumption|].
      apply extract_mood. exists d, e, c, e', c'. eauto 10.
    + destruct Hv as (b & s & c & Gb & Gs & Gc & [b' Vb] & [s' Vs] & [c' Vc]).
      exists (CrisisRecord (CrisisResponse.mk b' s' c')).
      apply answer_returned. exists (PyDict d). split; [assumption|].
      apply extract_crisis. exists d, b, s, c, b', s', c'. eauto 12.
    + destruct Hv as (s & Gs & [s' Vs]).
      exists (SummaryRecord (SummaryResponse.mk s')).
      apply answer_returned. exists (PyDict d). split; [assumption|].
      apply extract_summary. exists d, s, s'. eauto.
  - intros response reply s e -> Es Ej Ec El.
    apply failure_raises. now apply content_malformed with reply s e.
Qed.

(** C5.  For each handler there are a system message, a prefix and a suffix
    such that, for every text, the handler submits the list of exactly two
    messages [system message; prefix ++ text ++ suffix], the text being
    embedded as it is.  The messages depend on the text alone: whatever the
    log of earlier requests, the same text gives the same messages. *)
Theorem prompt_is_a_fixed_template (ep : endpoint) (input_data : TextInput)
    (log : list Request) :
  exists request,
    (handle GROQ_API_KEY str loads post ep input_data log).2 = log ++ [request] /\
    messages (json request) =
      [ {| role := "system"; content := system_message ep |};
        {| role := "user";
           content :=
             prompt_prefix ep +:+ text input_data +:+ prompt_suffix ep |} ] /\
    (forall log',
       (handle GROQ_API_KEY str loads post ep input_data log').2
       = log' ++ [request]).
Proof.
  exists (sent_request GROQ_API_KEY ep input_data).
  split; [apply handle_log|]. split; [|intros; apply handle_log].
  simpl. now rewrite prompt_split.
Qed.

(** C6.  The request that a handler sends carries [max_tokens] (100 for
    mood, 150 for crisis, 300 for summary), a temperature, the response
    format [{"type": "json_object"}] and the timeout 30.0; and every request
    that [call_groq_api] builds carries the [max_tokens] and temperature it
    was given (150 and 0.3 when they are left out), the same response format
    and the same timeout. *)
Theorem request_is_bounded (ep : endpoint) (input_data : TextInput)
    (log : list Request) :
  (exists request,
     (handle GROQ_API_KEY str loads post ep input_data log).2 = log ++ [request] /\
     max_tokens (json request) =
       match ep with
       | AnalyzeMood => 100%Z
       | DetectCrisis => 150%Z
       | Summarize => 300%Z
       end /\
     temperature (json request) =
       match ep with
       | AnalyzeMood => 0.2%float
       | DetectCrisis => 0.1%float
       | Summarize => 0.4%float
       end /\
     response_format (json request) = {["type" := "json_object"]} /\
     timeout request = 30.0%float) /\
  (forall msgs t m,
   exists request,
     (call_groq_api GROQ_API_KEY str post msgs t m log).2 = log ++ [request] /\
     messages (json request) = msgs /\
     max_tokens (json request) = default 150%Z m /\
     temperature (json request) = default 0.3%float t /\
     response_format (json request) = {["type" := "json_object"]} /\
     timeout request = 30.0%float).
Proof.
  split.
  - exists (sent_request GROQ_API_KEY ep input_data).
    split; [apply handle_log|]. now destruct ep.
  - intros msgs t m. rewrite call_groq_api_eq. eexists. split; [reflexivity|].
    now repeat split.
Qed.

(** C7.  The empty text is accepted by every endpoint: the handler sends its
    request to the provider, with the empty string at the place of the text
    in the prompt, and its outcome is the one that the provider's answer
    determines, as for any other text. *)
Theorem empty_text_is_forwarded (ep : endpoint) (log : list Request) :
  exists request,
    (handle GROQ_API_KEY str loads post ep {| text := EmptyString |} log).2
    = log ++ [request] /\
    messages (json request) =
      [ {| role := "system"; content := system_message ep |};
        {| role := "user";
           content := prompt_prefix ep +:+ EmptyString +:+ prompt_suffix ep |} ] /\
    (handle GROQ_API_KEY str loads post ep {| text := EmptyString |} log).1
    = answer str loads ep (post (length log) request).
Proof.
  exists (sent_request GROQ_API_KEY ep {| text := EmptyString |}).
  split; [apply handle_log|]. split; [|apply handle_outcome].
  simpl. now rewrite prompt_split.
Qed.

(** C8.  A handler makes one outbound call and no second one: after it has
    run, whatever the provider did (a transport failure, a status that is
    not 2xx, a content that does not decode), the log of requests is the log
    before it with one request added. *)
Theorem one_outbound_call (ep : endpoint) (input_data : TextInput)
    (log : list Request) :
  (handle GROQ_API_KEY str loads post ep input_data log).2
  = log ++ [sent_request GROQ_API_KEY ep input_data] /\
  length (handle GROQ_API_KEY str loads post ep input_data log).2
  = S (length log).
Proof.
  rewrite handle_log. split; [reflexivity|].
  rewrite length_app. simpl. lia.
Qed.

(** C10.  When the outbound call fails with an [httpx.HTTPError] (in
    transport, by a status that is not 2xx, or while the body is read), the
    500 that the completion client raises is caught by the handler and
    wrapped again: the detail of the error returned starts with the
    handler's prefix and never with the client's "API call failed". *)
Theorem client_error_is_rewrapped (ep : endpoint) (input_data : TextInput)
    (log : list Request) (e : exn) :
  (post (length log) (sent_request GROQ_API_KEY ep input_data) = Raised e /\
   isinstance_HTTPError e = true) \/
  (exists response,
     post (length log) (sent_request GROQ_API_KEY ep input_data)
     = Returned response /\
     raise_for_status response = Raised e) \/
  (exists response,
     post (length log) (sent_request GROQ_API_KEY ep input_data)
     = Returned response /\
     raise_for_status response = Returned tt /\
     response_json response = Raised e /\
     isinstance_HTTPError e = true) ->
  exists detail,
    (handle GROQ_API_KEY str loads post ep input_data log).1
    = Raised (HTTPException 500 detail) /\
    detail =
      error_prefix ep +:+ str (HTTPException 500 ("API call failed: " +:+ str e)) /\
    String.prefix (error_prefix ep) detail = true /\
    String.prefix "API call failed" detail = false.
Proof.
  intros H. eexists. split; [|split; [reflexivity|split]].
  - rewrite handle_outcome. unfold answer, api_reply.
    destruct H as [[-> He]|[(response & -> & Es)|(response & -> & Es & Ej & He)]];
      cbn [obind].
    + now rewrite He.
    + rewrite Es. cbn [obind].
      unfold raise_for_status in Es.
      destruct (_ && _) in Es; [discriminate|]. now injection Es as <-.
    + rewrite Es. cbn [obind]. rewrite Ej. now rewrite He.
  - apply prefix_append.
  - now destruct ep.
Qed.

End ServiceFacts.

(** * Worked examples *)

(** C1 as stated fails: the provider answers
    [{"emotion": "ecstatic", "confidence": 7.5}] and [analyze_mood] returns
    that emotion and that confidence. *)
Lemma analyze_mood_out_of_range :
  (analyze_mood example_key message_of decode (provider_says ecstatic_content)
     example_input []).1
  = Returned (MoodResponse.mk "ecstatic" 7.5%float) /\
  ~ In "ecstatic" EMOTIONS /\
  in_unit_interval 7.5%float = false /\
  ~ mood_in_range (MoodResponse.mk "ecstatic" 7.5%float).
Proof.
  split; [vm_compute; reflexivity|].
  split; [simpl; intuition discriminate|].
  split; [reflexivity|].
  intros [_ H]. vm_compute in H. discriminate.
Qed.

(** The amended C1 at a reply within range. *)
Lemma analyze_mood_fields_as_provided_witness :
  exists d e c,
    parsed_reply decode
      (provider_says happy_content (length (@nil Request))
         (sent_request example_key AnalyzeMood example_input))
      (PyDict d) /\
    d !! "emotion" = Some e /\ d !! "confidence" = Some c /\
    validate_str e = Some "happy" /\
    validate_float c = Some 0.9%float /\
    (forall s, e = PyStr s -> (In "happy" EMOTIONS <-> In s EMOTIONS)) /\
    (forall f, c = PyFloat f -> in_unit_interval 0.9%float = in_unit_interval f).
Proof.
  apply (analyze_mood_fields_as_provided example_key message_of decode
           (provider_says happy_content) example_input []
           (MoodResponse.mk "happy" 0.9%float)).
  vm_compute. reflexivity.
Defined.

(** C2 as stated fails: the provider answers
    [{"crisis_detected": true, "severity": "catastrophic", "confidence": -3.0}]
    and [detect_crisis] returns that severity and that confidence. *)
Lemma detect_crisis_out_of_range :
  (detect_crisis example_key message_of decode (provider_says catastrophic_content)
     example_input []).1
  = Returned (CrisisResponse.mk true "catastrophic" (-3.0)%float) /\
  ~ In "catastrophic" SEVERITIES /\
  in_unit_interval (-3.0)%float = false /\
  ~ crisis_in_range (CrisisResponse.mk true "catastrophic" (-3.0)%float).
Proof.
  split; [vm_compute; reflexivity|].
  split; [simpl; intuition discriminate|].
  split; [reflexivity|].
  intros [_ H]. vm_compute in H. discriminate.
Qed.

(** The amended C2 at a reply within range. *)
Lemma detect_crisis_fields_as_provided_witness :
  exists d b s c,
    parsed_reply decode
      (provider_says low_content (length (@nil Request))
         (sent_request example_key DetectCrisis example_input))
      (PyDict d) /\
    d !! "crisis_detected" = Some b /\ d !! "severity" = Some s /\
    d !! "confidence" = Some c /\
    validate_bool b = Some false /\
    validate_str s = Some "low" /\
    validate_float c = Some 0.8%float /\
    (forall s', s = PyStr s' -> (In "low" SEVERITIES <-> In s' SEVERITIES)) /\
    (forall f, c = PyFloat f -> in_unit_interval 0.8%float = in_unit_interval f).
Proof.
  apply (detect_crisis_fields_as_provided example_key message_of decode
           (provider_says low_content) example_input []
           (CrisisResponse.mk false "low" 0.8%float)).
  vm_compute. reflexivity.
Defined.

(** C3 at a content that decodes to an array: the record cannot be built. *)
Lemma failures_collapse_to_500_witness :
  (handle example_key message_of decode (provider_says "[1, 2]") AnalyzeMood
     example_input []).1
  = Raised (HTTPException 500
              (error_prefix AnalyzeMood
               +:+ message_of
                     (TypeError
                        "list indices must be integers or slices, not str"))).
Proof.
  apply (proj2 (proj1 (failures_collapse_to_500 example_key message_of decode
                         (provider_says "[1, 2]") AnalyzeMood example_input [])
                  _)).
  exists (TypeError "list indices must be integers or slices, not str").
  split; [|reflexivity].
  apply record_raised
    with (completion (PyStr "[1, 2]")) (PyStr "[1, 2]")
         (PyList [PyInt 1; PyInt 2]);
    vm_compute; reflexivity.
Defined.

(** C4 as stated fails: the reply has the chat-completion shape, its content
    [{"emotion": "sad", "confidence": null}] decodes and holds both fields of
    the schema, and the endpoint answers with an error. *)
Lemma present_fields_do_not_suffice :
  parsed_reply decode
    (provider_says null_confidence_content (length (@nil Request))
       (sent_request example_key AnalyzeMood example_input))
    (PyDict (<["confidence" := PyNone]> {["emotion" := PyStr "sad"]})) /\
  fields_present AnalyzeMood
    (<["confidence" := PyNone]> {["emotion" := PyStr "sad"]}) /\
  (handle example_key message_of decode (provider_says null_confidence_content)
     AnalyzeMood example_input []).1
  = Raised (HTTPException 500
              "Error analyzing mood: validation error for MoodResponse").
Proof.
  split; [|split].
  - eexists _, _, _. repeat split; vm_compute; reflexivity.
  - repeat constructor; vm_compute; eauto.
  - vm_compute. reflexivity.
Qed.

(** The amended C4 at a reply with valid fields. *)
Lemma record_iff_valid_reply_witness :
  exists r,
    (handle example_key message_of decode (provider_says summary_content)
       Summarize example_input []).1 = Returned r.
Proof.
  apply (proj1 (record_iff_valid_reply example_key message_of decode
                  (provider_says summary_content) Summarize example_input [])).
  exists {["summary" := PyStr "A short text."]}. split.
  - eexists _, _, _. repeat split; vm_compute; reflexivity.
  - exists (PyStr "A short text."). split; vm_compute; eauto.
Defined.

(** C9 at a summary. *)
Lemma fields_pass_through_witness :
  exists d s,
    parsed_reply decode
      (provider_says summary_content (length (@nil Request))
         (sent_request example_key Summarize example_input))
      (PyDict d) /\
    d !! "summary" = Some s /\
    validate_str s = Some "A short text." /\
    (forall s', s = PyStr s' -> "A short text." = s').
Proof.
  apply (proj2 (proj2 (fields_pass_through example_key message_of decode
                         (provider_says summary_content) example_input []))
           (SummaryResponse.mk "A short text.")).
  vm_compute. reflexivity.
Defined.

(** C10 at a provider that cannot be reached. *)
Lemma client_error_is_rewrapped_witness :
  exists detail,
    (handle example_key message_of decode (provider_script []) DetectCrisis
       example_input []).1
    = Raised (HTTPException 500 detail) /\
    detail =
      error_prefix DetectCrisis
      +:+ message_of
            (HTTPException 500
               ("API call failed: "
                +:+ message_of
                      (TransportError "ConnectError"
                         "All connection attempts failed"))) /\
    String.prefix (error_prefix DetectCrisis) detail = true /\
    String.prefix "API call failed" detail = false.
Proof.
  apply (client_error_is_rewrapped example_key message_of decode
           (provider_script []) DetectCrisis example_input []).
  left. split; reflexivity.
Defined.

(** ** Further runs *)

Example decode_ecstatic_content :
  decode ecstatic_content
  = Returned (PyDict (<["confidence" := PyFloat 7.5%float]>
                        {["emotion" := PyStr "ecstatic"]})).
Proof. vm_compute. reflexivity. Qed.

Example decode_last_duplicate_wins :
  decode (String.concat dq ["{"; "a"; ": 1, "; "a"; ": [true, null]}"])
  = Returned (PyDict {["a" := PyList [PyBool true; PyNone]]}).
Proof. vm_compute. reflexivity. Qed.

Example decode_trailing_text : decode "{} x" = Raised (JSONDecodeError "Extra data").
Proof. reflexivity. Qed.

(** The first call fails and a second one would succeed: the handler does
    not make it. *)
Example no_retry_after_a_failure :
  handle example_key message_of decode
    (provider_script
       [ Raised (TransportError "ReadTimeout" "The read operation timed out");
         Returned {| status_code := 200;
                     response_json := Returned (completion (PyStr happy_content)) |} ])
    AnalyzeMood example_input []
  = (Raised (HTTPException 500
       "Error analyzing mood: API call failed: The read operation timed out"),
     [sent_request example_key AnalyzeMood example_input]).
Proof. vm_compute. reflexivity. Qed.

(** A status that is not 2xx is an error, whatever the body. *)
Example status_503 :
  (handle example_key message_of decode
     (provider_script
        [ Returned {| status_code := 503;
                      response_json :=
                        Returned (completion (PyStr summary_content)) |} ])
     Summarize example_input []).1
  = Raised (HTTPException 500
      "Error summarizing text: API call failed: error response from the server").
Proof. vm_compute. reflexivity. Qed.

(** A body without [choices]. *)
Example reply_without_choices :
  (handle example_key message_of decode
     (provider_script
        [ Returned {| status_code := 200;
                      response_json :=
                        Returned (PyDict {["error" := PyStr "overloaded"]}) |} ])
     DetectCrisis example_input []).1
  = Raised (HTTPException 500 "Error detecting crisis: 'choices'").
Proof. vm_compute. reflexivity. Qed.

(** A content that is not JSON. *)
Example content_not_json :
  (handle example_key message_of decode (provider_says "I feel happy for you!")
     AnalyzeMood example_input []).1
  = Raised (HTTPException 500 "Error analyzing mood: Expecting value").
Proof. vm_compute. reflexivity. Qed.

(** A content that is JSON and lacks the field. *)
Example content_without_summary :
  (handle example_key message_of decode (provider_says "{}")
     Summarize example_input []).1
  = Raised (HTTPException 500 "Error summarizing text: 'summary'").
Proof. vm_compute. reflexivity. Qed.

(** The first character of a string, as [s[0]] returns it. *)
Example first_character :
  getitem (PyStr "→ happy") (KInt 0) = Returned (PyStr "→").
Proof. reflexivity. Qed.

Example last_element :
  getitem (PyList [PyInt 1; PyInt 2; PyInt 3]) (KInt (-1)) = Returned (PyInt 3).
Proof. reflexivity. Qed.

(** * More properties of the service *)

Section MoreServiceFacts.

Variable GROQ_API_KEY : string.
Variable str : exn -> string.
Variable loads : string -> outcome pyval.
Variable post : nat -> Request -> outcome Response.
Context {pydantic : Pydantic}.

Lemma raise_for_status_returned (response : Response) :
  raise_for_status response = Returned tt <->
  (200 <= status_code response < 300)%Z.
Proof.
  unfold raise_for_status.
  destruct (200 <=? status_code response)%Z eqn:E1,
    (status_code response <? 300)%Z eqn:E2; simpl; split;
    try discriminate; try reflexivity; lia.
Qed.

Lemma raise_for_status_raised (response : Response) (e : exn) :
  raise_for_status response = Raised e <->
  ((status_code response < 200)%Z \/ (300 <= status_code response)%Z) /\
  e = HTTPStatusError (status_code response).
Proof.
  unfold raise_for_status.
  destruct (200 <=? status_code response)%Z eqn:E1,
    (status_code response <? 300)%Z eqn:E2; simpl; split;
    try discriminate; try (intros [= <-]; split; [lia|reflexivity]);
    try (intros [? ->]; reflexivity); intros [? _]; lia.
Qed.

(** The outcome of a handler on a response that passed the status check and
    whose body was read. *)
Lemma answer_of_body (ep : endpoint) (response : Response) (reply : pyval) :
  raise_for_status response = Returned tt ->
  response_json response = Returned reply ->
  answer str loads ep (Returned response) =
  match obind (message_content reply) (fun content =>
        obind (json_loads loads content) (extract ep)) with
  | Raised e => Raised (HTTPException 500 (error_prefix ep +:+ str e))
  | Returned r => Returned r
  end.
Proof.
  intros Es Ej. unfold answer, api_reply. cbn [obind].
  rewrite Es. cbn [obind]. now rewrite Ej.
Qed.

(** The outcome of a handler on a reply whose content was decoded. *)
Lemma answer_of_parsed (ep : endpoint) (p : outcome Response) (result : pyval) :
  parsed_reply loads p result ->
  answer str loads ep p =
  match extract ep result with
  | Raised e => Raised (HTTPException 500 (error_prefix ep +:+ str e))
  | Returned r => Returned r
  end.
Proof.
  intros (response & reply & s & -> & Es & Ej & Ec & El).
  rewrite (answer_of_body ep response reply Es Ej).
  rewrite Ec. cbn [obind json_loads]. now rewrite El.
Qed.

(** X1.  [call_groq_api] returns a value exactly when the call returned a
    response with a status from 200 to 299 whose body [response.json()]
    decodes: the value is that body. *)
Theorem call_groq_api_returns_iff (msgs : list Message) (t : option float)
    (m : option Z) (log : list Request) (v : pyval) :
  (call_groq_api GROQ_API_KEY str post msgs t m log).1 = Returned v <->
  exists response,
    post (length log)
      (groq_request GROQ_API_KEY msgs (default 0.3%float t) (default 150%Z m))
    = Returned response /\
    (200 <= status_code response < 300)%Z /\
    response_json response = Returned v.
Proof.
  rewrite call_groq_api_eq. cbn [fst]. unfold api_reply. split.
  - destruct (post _ _) as [e|response]; cbn [obind].
    { destruct (isinstance_HTTPError e); discriminate. }
    destruct (raise_for_status response) as [e|[]] eqn:Es; cbn [obind].
    { destruct (isinstance_HTTPError e); discriminate. }
    destruct (response_json response) as [e|v'] eqn:Ej.
    { destruct (isinstance_HTTPError e); discriminate. }
    intros [= ->]. exists response.
    now apply raise_for_status_returned in Es.
  - intros (response & -> & Es%raise_for_status_returned & Ej).
    cbn [obind]. rewrite Es. cbn [obind]. now rewrite Ej.
Qed.

(** X2.  [call_groq_api] raises exactly when [client.post] raises, the
    status is outside 200-299 ([HTTPStatusError]), or [response.json()]
    raises.  An [httpx.HTTPError] is replaced by a 500 whose detail is
    "API call failed: " and its message; any other exception leaves
    [call_groq_api] as it is. *)
Theorem call_groq_api_raises_iff (msgs : list Message) (t : option float)
    (m : option Z) (log : list Request) (e' : exn) :
  (call_groq_api GROQ_API_KEY str post msgs t m log).1 = Raised e' <->
  exists e,
    (post (length log)
       (groq_request GROQ_API_KEY msgs (default 0.3%float t) (default 150%Z m))
     = Raised e \/
     exists response,
       post (length log)
         (groq_request GROQ_API_KEY msgs (default 0.3%float t) (default 150%Z m))
       = Returned response /\
       ((((status_code response < 200)%Z \/ (300 <= status_code response)%Z) /\
         e = HTTPStatusError (status_code response)) \/
        ((200 <= status_code response < 300)%Z /\
         response_json response = Raised e))) /\
    e' = if isinstance_HTTPError e
         then HTTPException 500 ("API call failed: " +:+ str e)
         else e.
Proof.
  rewrite call_groq_api_eq. cbn [fst]. unfold api_reply. split.
  - destruct (post _ _) as [e|response]; cbn [obind].
    { intros H. exists e. split; [now left|].
      destruct (isinstance_HTTPError e); congruence. }
    destruct (raise_for_status response) as [e|[]] eqn:Es; cbn [obind].
    { intros H. exists e. split.
      - right. exists response. split; [reflexivity|]. left.
        now apply raise_for_status_raised.
      - destruct (isinstance_HTTPError e); congruence. }
    destruct (response_json response) as [e|v] eqn:Ej; [|discriminate].
    intros H. exists e. split.
    + right. exists response. split; [reflexivity|]. right.
      split; [now apply raise_for_status_returned|exact Ej].
    + destruct (isinstance_HTTPError e); congruence.
  - intros (e & [->|(response & -> & [Hs|[Hs Ej]])] & ->); cbn [obind].
    + now destruct (isinstance_HTTPError e).
    + apply raise_for_status_raised in Hs. rewrite Hs. cbn [obind].
      now destruct (isinstance_HTTPError e).
    + apply raise_for_status_returned in Hs. rewrite Hs. cbn [obind].
      rewrite Ej. now destruct (isinstance_HTTPError e).
Qed.

(** X3.  When the response has a status from 200 to 299 and
    [response.json()] raises an exception that is not an [httpx.HTTPError]
    (a body that is not JSON), the handler reports that exception under its
    own prefix, without the "API call failed: " of the client. *)
Theorem unreadable_body_is_reported_directly (ep : endpoint)
    (input_data : TextInput) (log : list Request) (response : Response)
    (e : exn) :
  post (length log) (sent_request GROQ_API_KEY ep input_data)
  = Returned response ->
  (200 <= status_code response < 300)%Z ->
  response_json response = Raised e ->
  isinstance_HTTPError e = false ->
  (handle GROQ_API_KEY str loads post ep input_data log).1
  = Raised (HTTPException 500 (error_prefix ep +:+ str e)).
Proof.
  intros Hp Hs%raise_for_status_returned Ej He.
  rewrite handle_outcome, Hp. unfold answer, api_reply. cbn [obind].
  rewrite Hs. cbn [obind]. rewrite Ej, He. reflexivity.
Qed.

(** X5.  A body that is an object without [choices], or whose [choices] is
    the empty list, makes the handler answer 500 with the message of the
    [KeyError] for [choices], or of the [IndexError] of the list. *)
Theorem reply_without_a_choice (ep : endpoint) (input_data : TextInput)
    (log : list Request) (response : Response) (d : gmap string pyval) :
  post (length log) (sent_request GROQ_API_KEY ep input_data)
  = Returned response ->
  (200 <= status_code response < 300)%Z ->
  response_json response = Returned (PyDict d) ->
  (d !! "choices" = None ->
   (handle GROQ_API_KEY str loads post ep input_data log).1
   = Raised (HTTPException 500
               (error_prefix ep +:+ str (KeyError (KStr "choices"))))) /\
  (d !! "choices" = Some (PyList []) ->
   (handle GROQ_API_KEY str loads post ep input_data log).1
   = Raised (HTTPException 500
               (error_prefix ep
                +:+ str (IndexError "list index out of range")))).
Proof.
  intros Hp Hs%raise_for_status_returned Ej.
  rewrite handle_outcome, Hp, (answer_of_body ep response _ Hs Ej).
  unfold message_content. split; intros Hc; simpl; rewrite Hc; reflexivity.
Qed.

(** X6.  When the content of the message is not a string (a [null], as for
    a reply without text), [json.loads] raises a [TypeError] and the handler
    answers 500 with its message. *)
Theorem content_must_be_a_string (ep : endpoint) (input_data : TextInput)
    (log : list Request) (response : Response) (reply c : pyval) :
  post (length log) (sent_request GROQ_API_KEY ep input_data)
  = Returned response ->
  (200 <= status_code response < 300)%Z ->
  response_json response = Returned reply ->
  message_content reply = Returned c ->
  (forall s, c <> PyStr s) ->
  (handle GROQ_API_KEY str loads post ep input_data log).1
  = Raised (HTTPException 500
              (error_prefix ep
               +:+ str (TypeError
                          ("the JSON object must be str, bytes or bytearray, not "
                           +:+ type_name c)))).
Proof.
  intros Hp Hs%raise_for_status_returned Ej Ec Hc.
  rewrite handle_outcome, Hp, (answer_of_body ep response _ Hs Ej), Ec.
  cbn [obind]. destruct c; try reflexivity. now destruct (Hc s).
Qed.

(** X7.  When the content decodes to a value that is not an object (an
    array, a string, a number, a literal), the handler answers 500 with the
    message of a [TypeError]: no record is built from it. *)
Theorem content_must_be_an_object (ep : endpoint) (input_data : TextInput)
    (log : list Request) (v : pyval) :
  parsed_reply loads
    (post (length log) (sent_request GROQ_API_KEY ep input_data)) v ->
  (forall d, v <> PyDict d) ->
  exists msg,
    (handle GROQ_API_KEY str loads post ep input_data log).1
    = Raised (HTTPException 500 (error_prefix ep +:+ str (TypeError msg))).
Proof.
  intros Hp Hv. rewrite handle_outcome, (answer_of_parsed ep _ v Hp).
  destruct v as [| | | | | |d];
    try (destruct ep; simpl; eexists; reflexivity).
  now destruct (Hv d).
Qed.

(** X8.  When the decoded object lacks fields of the schema, the handler
    answers 500 with the message of the [KeyError] of the first missing
    field, in the order in which the handler reads them; the values of the
    fields that are present are not validated before. *)
Theorem first_missing_field_is_reported (ep : endpoint)
    (input_data : TextInput) (log : list Request) (d : gmap string pyval)
    (k : string) :
  parsed_reply loads
    (post (length log) (sent_request GROQ_API_KEY ep input_data)) (PyDict d) ->
  first_missing d (schema ep) = Some k ->
  (handle GROQ_API_KEY str loads post ep input_data log).1
  = Raised (HTTPException 500 (error_prefix ep +:+ str (KeyError (KStr k)))).
Proof.
  intros Hp Hk. rewrite handle_outcome, (answer_of_parsed ep _ _ Hp).
  unfold first_missing in Hk.
  destruct ep; simpl in Hk |- *;
    repeat match type of Hk with
      | context [d !! ?key] => destruct (d !! key); simpl in Hk |- *
      end;
    try discriminate; now injection Hk as <-.
Qed.

(** The record depends on the fields of the schema alone. *)
Lemma extract_agree (ep : endpoint) (d d' : gmap string pyval) :
  (forall k, k ∈ schema ep -> d !! k = d' !! k) ->
  extract ep (PyDict d) = extract ep (PyDict d').
Proof.
  intros H. destruct ep; simpl in H |- *.
  - rewrite <- (H "emotion"), <- (H "confidence") by set_solver. reflexivity.
  - rewrite <- (H "crisis_detected"), <- (H "severity"), <- (H "confidence")
      by set_solver.
    reflexivity.
  - rewrite <- (H "summary") by set_solver. reflexivity.
Qed.

(** X9.  The outcome of a handler depends on the decoded object through the
    fields of the schema alone: two replies whose objects agree on these
    fields give the same record, or the same error, whatever else the
    objects hold and whatever the texts were. *)
Theorem only_schema_fields_matter (ep : endpoint)
    (input_data input_data' : TextInput) (log log' : list Request)
    (post' : nat -> Request -> outcome Response) (d d' : gmap string pyval) :
  parsed_reply loads
    (post (length log) (sent_request GROQ_API_KEY ep input_data)) (PyDict d) ->
  parsed_reply loads
    (post' (length log') (sent_request GROQ_API_KEY ep input_data'))
    (PyDict d') ->
  (forall k, k ∈ schema ep -> d !! k = d' !! k) ->
  (handle GROQ_API_KEY str loads post ep input_data log).1
  = (handle GROQ_API_KEY str loads post' ep input_data' log').1.
Proof.
  intros Hp Hp' H. rewrite !handle_outcome.
  rewrite (answer_of_parsed ep _ _ Hp), (answer_of_parsed ep _ _ Hp').
  now rewrite (extract_agree ep d d' H).
Qed.

End MoreServiceFacts.

Section RequestFacts.

Variable GROQ_API_KEY : string.
Variable str : exn -> string.
Variable loads : string -> outcome pyval.
Variable post : nat -> Request -> outcome Response.
Context {pydantic : Pydantic}.

Lemma length_append (a b : string) :
  String.length (a +:+ b) = String.length a + String.length b.
Proof.
  induction a as [|x a IH]; [reflexivity|].
  unfold String.app in *. simpl. now rewrite IH.
Qed.

Lemma append_cancel_r (a b c : string) : a +:+ c = b +:+ c -> a = b.
Proof.
  revert b. induction a as [|x a IH]; intros [|y b] H.
  - reflexivity.
  - apply (f_equal String.length) in H. rewrite !length_append in H.
    simpl in H. lia.
  - apply (f_equal String.length) in H. rewrite !length_append in H.
    simpl in H. lia.
  - unfold String.app in *. simpl in H. injection H as -> H.
    f_equal. now apply IH.
Qed.

(** The text can be read back from the prompt. *)
Lemma prompt_inj (ep : endpoint) (input_data input_data' : TextInput) :
  prompt ep input_data = prompt ep input_data' -> input_data = input_data'.
Proof.
  rewrite !prompt_split. intros H%String.app_inj%append_cancel_r.
  destruct input_data, input_data'. simpl in H. now subst.
Qed.

(** X10.  The outbound request determines the inbound one: when a handler
    sends the same request for two calls, the calls are to the same
    endpoint with the same text.  The text is neither cut nor normalised on
    its way into the prompt. *)
Theorem request_determines_endpoint_and_text (ep ep' : endpoint)
    (input_data input_data' : TextInput) (log : list Request) :
  (handle GROQ_API_KEY str loads post ep input_data log).2
  = (handle GROQ_API_KEY str loads post ep' input_data' log).2 ->
  ep = ep' /\ input_data = input_data'.
Proof.
  rewrite !handle_log. intros H%app_inv_head.
  injection H as Hsys Hprompt Htemp Htokens.
  assert (ep = ep') as <- by (destruct ep, ep'; try discriminate; reflexivity).
  split; [reflexivity|]. now apply prompt_inj with ep.
Qed.

(** X11.  Every request of a handler goes to the completion URL, names the
    model, and has exactly the two headers [Authorization] and
    [Content-Type]; the bearer token is the value of [GROQ_API_KEY] in the
    environment and, when the variable is not set, the placeholder
    "your-groq-api-key-here": the request is sent all the same. *)
Theorem request_carries_the_configured_key (environ : gmap string string)
    (ep : endpoint) (input_data : TextInput) (log : list Request) :
  exists request,
    (handle (load_api_key environ) str loads post ep input_data log).2
    = log ++ [request] /\
    url request = "https://api.groq.com/openai/v1/chat/completions" /\
    model (json request) = "llama-3.1-70b-versatile" /\
    headers request !! "Authorization"
    = Some ("Bearer "
            +:+ match environ !! "GROQ_API_KEY" with
                | Some value => value
                | None => "your-groq-api-key-here"
                end) /\
    headers request !! "Content-Type" = Some "application/json" /\
    dom (headers request) = {[ "Authorization"; "Content-Type" ]}.
Proof.
  exists (sent_request (load_api_key environ) ep input_data).
  split; [apply handle_log|]. do 2 (split; [reflexivity|]).
  unfold sent_request, groq_request, load_api_key, getenv. cbn [headers].
  split; [|split].
  - rewrite lookup_insert_ne by discriminate. rewrite lookup_insert_eq.
    now destruct (environ !! "GROQ_API_KEY").
  - now rewrite lookup_insert_eq.
  - rewrite !dom_insert_L, dom_empty_L. set_solver.
Qed.

End RequestFacts.

(** ** The logging setup *)

(** What the setup leaves, whatever it finds. *)
Lemma setup_logging_eq (module_dir : string) (file_id console_id : nat)
    (logger : Logger) :
  file_id <> console_id ->
  setup_logging module_dir file_id console_id logger =
  {| logger_level := 20;
     handlers :=
       [ {| handler_id := file_id;
            kind :=
              RotatingFileHandler
                (path_join (path_join module_dir "logs") "error.log")
                1048576 3;
            handler_level := 40;
            formatter := "%(asctime)s - %(levelname)s - %(message)s" |};
         {| handler_id := console_id;
            kind := StreamHandler;
            handler_level := 20;
            formatter := "%(levelname)s - %(message)s" |} ] |}.
Proof.
  intros Hne. apply Nat.eqb_neq in Hne.
  unfold setup_logging, hasHandlers, setLevel, clear_handlers.
  destruct logger as [level [|h hs]]; cbn [handlers negb logger_level];
    unfold addHandler, has_handler; simpl; now rewrite Hne.
Qed.

(** X12.  Whatever handlers the root logger has when [app/main.py] is
    loaded, afterwards its level is INFO and its handlers are exactly the
    rotating file handler of [logs/error.log] (level ERROR, 1 MiB, 3
    backups) followed by the console handler (level INFO); loading the
    module again replaces the two handlers and does not add to them. *)
Theorem setup_logging_installs_two_handlers (module_dir : string)
    (file_id console_id : nat) (logger : Logger) :
  file_id <> console_id ->
  logger_level (setup_logging module_dir file_id console_id logger) = INFO /\
  map (fun h => (kind h, handler_level h))
    (handlers (setup_logging module_dir file_id console_id logger))
  = [ (RotatingFileHandler
         (path_join (path_join module_dir "logs") "error.log") 1048576 3,
       ERROR);
      (StreamHandler, INFO) ] /\
  map handler_id (handlers (setup_logging module_dir file_id console_id logger))
  = [file_id; console_id] /\
  (forall file_id' console_id',
     file_id' <> console_id' ->
     setup_logging module_dir file_id' console_id'
       (setup_logging module_dir file_id console_id logger)
     = setup_logging module_dir file_id' console_id' logger).
Proof.
  intros Hne. rewrite (setup_logging_eq module_dir _ _ logger Hne).
  do 3 (split; [reflexivity|]).
  intros f c Hfc. now rewrite !setup_logging_eq.
Qed.

(** X13.  After the setup a record of level ERROR or above is passed to
    both handlers, the file first; a record from INFO to below ERROR is
    passed to the console alone and not written to the error log; a record
    below INFO is passed to no handler. *)
Theorem records_are_routed_by_level (module_dir : string)
    (file_id console_id : nat) (logger : Logger) (levelno : Z) :
  file_id <> console_id ->
  map handler_id
    (receivers (setup_logging module_dir file_id console_id logger) levelno)
  = if (40 <=? levelno)%Z then [file_id; console_id]
    else if (20 <=? levelno)%Z then [console_id]
    else [].
Proof.
  intros Hne.
  rewrite (setup_logging_eq module_dir _ _ logger Hne).
  unfold receivers. simpl.
  destruct (20 <=? levelno)%Z eqn:E20, (40 <=? levelno)%Z eqn:E40;
    simpl; try reflexivity; lia.
Qed.

(** ** The informational endpoints *)

(** X14.  The index advertises the POST routes and nothing else: a path is
    listed under [endpoints] of [GET /] exactly when it is the path of one
    of the three POST endpoints; and [GET /] and [GET /health] report the
    same status. *)
Theorem root_lists_the_post_routes (p : string) :
  ((exists endpoints name,
      getitem root (KStr "endpoints") = Returned endpoints /\
      getitem endpoints (KStr name) = Returned (PyStr p)) <->
   (exists ep, path ep = p)) /\
  getitem root (KStr "status") = getitem health_check (KStr "status").
Proof.
  split; [|reflexivity]. split.
  - intros (endpoints & name & H0 & H).
    apply getitem_str_returned in H0 as (d0 & [= <-] & H0).
    rewrite lookup_insert_ne, lookup_insert_eq in H0 by discriminate.
    injection H0 as <-.
    apply getitem_str_returned in H as (d & [= <-] & H).
    apply lookup_insert_Some in H as [[_ [= <-]]|[_ H]];
      [now exists AnalyzeMood|].
    apply lookup_insert_Some in H as [[_ [= <-]]|[_ H]];
      [now exists DetectCrisis|].
    apply lookup_singleton_Some in H as [_ [= <-]]. now exists Summarize.
  - intros [[] <-]; eexists _, _; (split; [reflexivity|]).
    + now instantiate (1 := "mood_analysis").
    + now instantiate (1 := "crisis_detection").
    + now instantiate (1 := "text_summarization").
Qed.

(** ** Runs of the further properties *)

(** X1 at a provider that answers. *)
Lemma call_groq_api_returns_iff_witness :
  (call_groq_api example_key message_of (provider_says happy_content)
     [] None None []).1
  = Returned (completion (PyStr happy_content)).
Proof.
  apply (proj2 (call_groq_api_returns_iff example_key message_of
                  (provider_says happy_content) [] None None []
                  (completion (PyStr happy_content)))).
  eexists. split; [reflexivity|]. split; [simpl; lia|reflexivity].
Defined.

(** X2 at a provider that cannot be reached. *)
Lemma call_groq_api_raises_iff_witness :
  (call_groq_api example_key message_of (provider_script [])
     [] None None []).1
  = Raised (HTTPException 500
              "API call failed: All connection attempts failed").
Proof.
  apply (proj2 (call_groq_api_raises_iff example_key message_of
                  (provider_script []) [] None None [] _)).
  exists (TransportError "ConnectError" "All connection attempts failed").
  split; [left; reflexivity|reflexivity].
Defined.

(** X3 at a body that is not JSON. *)
Lemma unreadable_body_is_reported_directly_witness :
  (handle example_key message_of decode (provider_script [html_response])
     AnalyzeMood example_input []).1
  = Raised (HTTPException 500
              (error_prefix AnalyzeMood
               +:+ message_of (JSONDecodeError "Expecting value"))).
Proof.
  apply (unreadable_body_is_reported_directly example_key message_of decode
           (provider_script [html_response]) AnalyzeMood example_input []
           {| status_code := 200;
              response_json := Raised (JSONDecodeError "Expecting value") |}).
  - reflexivity.
  - simpl. lia.
  - reflexivity.
  - reflexivity.
Defined.

(** X4 at a completion. *)
Lemma message_content_returned_witness :
  message_content (completion (PyStr happy_content))
  = Returned (PyStr happy_content).
Proof.
  apply (proj2 (message_content_returned (completion (PyStr happy_content))
                  (PyStr happy_content))).
  eexists _, _, _, _. repeat split; vm_compute; reflexivity.
Defined.

(** X5 at a body without [choices]. *)
Lemma reply_without_a_choice_witness :
  (handle example_key message_of decode
     (provider_script
        [ Returned {| status_code := 200; response_json := Returned (PyDict ∅) |} ])
     Summarize example_input []).1
  = Raised (HTTPException 500
              (error_prefix Summarize +:+ message_of (KeyError (KStr "choices")))).
Proof.
  apply (proj1 (reply_without_a_choice example_key message_of decode
                  (provider_script
                     [ Returned {| status_code := 200;
                                   response_json := Returned (PyDict ∅) |} ])
                  Summarize example_input []
                  {| status_code := 200; response_json := Returned (PyDict ∅) |}
                  ∅ eq_refl ltac:(simpl; lia) eq_refl)).
  reflexivity.
Defined.

(** X6 at a message whose content is [null]. *)
Lemma content_must_be_a_string_witness :
  (handle example_key message_of decode
     (provider_script
        [ Returned {| status_code := 200;
                      response_json := Returned (completion PyNone) |} ])
     DetectCrisis example_input []).1
  = Raised (HTTPException 500
              (error_prefix DetectCrisis
               +:+ message_of
                     (TypeError
                        ("the JSON object must be str, bytes or bytearray, not "
                         +:+ type_name PyNone)))).
Proof.
  apply (content_must_be_a_string example_key message_of decode
           (provider_script
              [ Returned {| status_code := 200;
                            response_json := Returned (completion PyNone) |} ])
           DetectCrisis example_input []
           {| status_code := 200; response_json := Returned (completion PyNone) |}
           (completion PyNone) PyNone).
  - reflexivity.
  - simpl. lia.
  - reflexivity.
  - vm_compute. reflexivity.
  - discriminate.
Defined.

(** X7 at a content that is an array. *)
Lemma content_must_be_an_object_witness :
  exists msg,
    (handle example_key message_of decode (provider_says "[1, 2]")
       AnalyzeMood example_input []).1
    = Raised (HTTPException 500
                (error_prefix AnalyzeMood +:+ message_of (TypeError msg))).
Proof.
  apply (content_must_be_an_object example_key message_of decode
           (provider_says "[1, 2]") AnalyzeMood example_input []
           (PyList [PyInt 1; PyInt 2])).
  - eexists _, _, _. repeat split; vm_compute; reflexivity.
  - discriminate.
Defined.

(** X8 at the empty object. *)
Lemma first_missing_field_is_reported_witness :
  (handle example_key message_of decode (provider_says "{}")
     DetectCrisis example_input []).1
  = Raised (HTTPException 500
              (error_prefix DetectCrisis
               +:+ message_of (KeyError (KStr "crisis_detected")))).
Proof.
  apply (first_missing_field_is_reported example_key message_of decode
           (provider_says "{}") DetectCrisis example_input [] ∅).
  - eexists _, _, _. repeat split; vm_compute; reflexivity.
  - reflexivity.
Defined.

(** X9 at a reply with a field outside the schema. *)
Lemma only_schema_fields_matter_witness :
  (handle example_key message_of decode (provider_says happy_content)
     AnalyzeMood example_input []).1
  = (handle example_key message_of decode (provider_says annotated_content)
       AnalyzeMood {| text := EmptyString |} []).1.
Proof.
  apply (only_schema_fields_matter example_key message_of decode
           (provider_says happy_content) AnalyzeMood example_input
           {| text := EmptyString |} [] [] (provider_says annotated_content)
           (<["confidence" := PyFloat 0.9%float]> {["emotion" := PyStr "happy"]})
           (<["note" := PyStr "sure"]>
              (<["confidence" := PyFloat 0.9%float]>
                 {["emotion" := PyStr "happy"]}))).
  - eexists _, _, _. repeat split; vm_compute; reflexivity.
  - eexists _, _, _. repeat split; vm_compute; reflexivity.
  - intros k Hk%list_elem_of_In. simpl in Hk.
    destruct Hk as [<-|[<-|[]]]; vm_compute; reflexivity.
Defined.

(** X10 at a request. *)
Lemma request_determines_endpoint_and_text_witness :
  Summarize = Summarize /\ example_input = example_input.
Proof.
  apply (request_determines_endpoint_and_text example_key message_of decode
           (provider_script []) Summarize Summarize example_input
           example_input []).
  reflexivity.
Defined.

(** X12 at a logger that has a handler already. *)
Lemma setup_logging_installs_two_handlers_witness :
  map handler_id (handlers (setup_logging "/srv/app" 1 2 used_logger)) = [1; 2].
Proof.
  apply (proj1 (proj2 (proj2
           (setup_logging_installs_two_handlers "/srv/app" 1 2 used_logger
              ltac:(discriminate))))).
Defined.

(** X13 at a warning. *)
Lemma records_are_routed_by_level_witness :
  map handler_id (receivers (setup_logging "/srv/app" 1 2 used_logger) WARNING)
  = [2].
Proof.
  apply (records_are_routed_by_level "/srv/app" 1 2 used_logger WARNING).
  discriminate.
Defined.

(** X14 at the summary route. *)
Lemma root_lists_the_post_routes_witness : exists ep, path ep = "/summarize".
Proof.
  apply (proj1 (proj1 (root_lists_the_post_routes "/summarize"))).
  eexists _, "text_summarization". split; vm_compute; reflexivity.
Defined.

Example path_join_examples :
  path_join "/srv/app" "logs" = "/srv/app/logs" /\
  path_join "/srv/app/" "logs" = "/srv/app/logs" /\
  path_join EmptyString "logs" = "logs" /\
  path_join "/srv/app" "/var/log" = "/var/log".
Proof. repeat split. Qed.
